(** * SA-MP servers query API: the protocol codec, the UDP exchange, the mock
    generator and the two query endpoints of [api/samp-server.js].

    Conventions of the embedding.

    - A JavaScript string is a Rocq [string] holding its UTF-8 bytes.
    - [undefined] is [None].  The query parameters [ip] and [port] are strings
      or missing; in an element of a batch, [ip] is a string or missing and
      [port] a number or missing.
    - A JavaScript number is a mathematical integer or [NaN].  Every number the
      program computes from a well-formed target stays far below 2^53, where
      doubles are exact.
    - A [Buffer] is a list of bytes; its reads and writes check their range as
      Node's do.
    - An exception is the [Throw] branch of [result].
    - [Math.random] is a stream of samples read through a counter.
    - One exchange is the run of the callbacks of [queryRealSampServer] over
      the events the network delivers, each with its time in milliseconds.
    - The clock ([Date.now], [new Date()]) and the console are left out: the
      records carry no [queryTime], and of [lastRestart] only the number of
      hours drawn. *)

From Stdlib Require Import ZArith List String Ascii Bool Lia QArith Qround.
From Stdlib Require Import DecimalString FinFun.
Import ListNotations.

Local Open Scope string_scope.
Local Open Scope list_scope.
Local Open Scope Z_scope.

(** ** Exceptions *)

Inductive js_error : Type :=
| TooShort        (* new Error('响应数据太短'), thrown by parseSampResponse *)
| RangeError      (* Buffer read or write out of range, dgram bad port *)
| TypeError       (* property access on undefined, call of a non-function *)
| NotRunning.     (* dgram: close() on a socket that is already closed *)

Inductive result (A : Type) : Type :=
| Ok (a : A)
| Throw (e : js_error).
Arguments Ok {A} a.
Arguments Throw {A} e.

Definition bind {A B} (m : result A) (k : A -> result B) : result B :=
  match m with
  | Ok a => k a
  | Throw e => Throw e
  end.

Notation "'let!' x ':=' m 'in' k" := (bind m (fun x => k))
  (at level 10, x pattern, m at level 100, k at level 200).

(** ** Numbers *)

Inductive number : Type :=
| NaN
| Int (z : Z).

Definition add (a b : number) : number :=
  match a, b with
  | Int x, Int y => Int (x + y)
  | _, _ => NaN
  end.

(** [a % m] for a positive integer constant [m]: the remainder has the sign of
    the dividend. *)
Definition rem (a : number) (m : Z) : number :=
  match a with
  | Int x => Int (Z.rem x m)
  | NaN => NaN
  end.

(** Unary plus on a value that is a number or [undefined]. *)
Definition to_number (v : option number) : number :=
  match v with
  | Some n => n
  | None => NaN
  end.

(** [arr[i]]: [undefined] unless [i] is an index of the array. *)
Definition index {A} (arr : list A) (i : number) : option A :=
  match i with
  | Int z => if z <? 0 then None else nth_error arr (Z.to_nat z)
  | NaN => None
  end.

(** ** Bytes and buffers *)

Definition byte := ascii.
Definition buffer := list byte.

Definition byte_val (b : byte) : Z := Z.of_N (N_of_ascii b).
Definition byte_of (z : Z) : byte := ascii_of_N (Z.to_N (z mod 256)).

Definition alloc (n : nat) : buffer := repeat zero n.

(** [buf[offset] = b] on a typed array: nothing happens out of range. *)
Fixpoint store (buf : buffer) (offset : nat) (b : byte) : buffer :=
  match buf, offset with
  | [], _ => []
  | _ :: rest, O => b :: rest
  | x :: rest, S k => x :: store rest k b
  end.

(** [buf.write(s, offset)]: as many bytes of [s] as fit. *)
Fixpoint write (buf : buffer) (s : list byte) (offset : nat) : buffer :=
  match s with
  | [] => buf
  | c :: rest => write (store buf offset c) rest (S offset)
  end.

(** [buf.writeUInt8(value, offset)].  Node rejects a value above the maximum or
    below the minimum; [NaN] compares false with both and is stored as 0. *)
Definition writeUInt8 (buf : buffer) (value : number) (offset : nat)
  : result buffer :=
  match value with
  | NaN =>
      if (offset <? List.length buf)%nat then Ok (store buf offset zero)
      else Throw RangeError
  | Int v =>
      if (255 <? v) || (v <? 0) then Throw RangeError
      else if (offset <? List.length buf)%nat then Ok (store buf offset (byte_of v))
      else Throw RangeError
  end.

(** [buf.writeUInt16LE(value, offset)], where [value] goes through unary plus. *)
Definition writeUInt16LE (buf : buffer) (value : option number) (offset : nat)
  : result buffer :=
  match to_number value with
  | NaN =>
      if (offset + 1 <? List.length buf)%nat
      then Ok (store (store buf offset zero) (S offset) zero)
      else Throw RangeError
  | Int v =>
      if (65535 <? v) || (v <? 0) then Throw RangeError
      else if (offset + 1 <? List.length buf)%nat
      then Ok (store (store buf offset (byte_of v)) (S offset) (byte_of (v / 256)))
      else Throw RangeError
  end.

(** [buf[offset]] for a non-negative integer offset. *)
Definition at_ (buf : buffer) (offset : Z) : option byte :=
  if offset <? 0 then None else nth_error buf (Z.to_nat offset).

Definition readUInt8 (buf : buffer) (offset : Z) : result Z :=
  match at_ buf offset with
  | Some b => Ok (byte_val b)
  | None => Throw RangeError
  end.

Definition readUInt16LE (buf : buffer) (offset : Z) : result Z :=
  match at_ buf offset, at_ buf (offset + 1) with
  | Some b0, Some b1 => Ok (byte_val b0 + byte_val b1 * 2 ^ 8)
  | _, _ => Throw RangeError
  end.

Definition readUInt32LE (buf : buffer) (offset : Z) : result Z :=
  match at_ buf offset, at_ buf (offset + 1), at_ buf (offset + 2),
        at_ buf (offset + 3) with
  | Some b0, Some b1, Some b2, Some b3 =>
      Ok (byte_val b0 + byte_val b1 * 2 ^ 8 + byte_val b2 * 2 ^ 16
          + byte_val b3 * 2 ^ 24)
  | _, _, _, _ => Throw RangeError
  end.

(** ** Strings *)

Definition code (c : ascii) : Z := Z.of_N (N_of_ascii c).

(** The white space and line terminator code points that [trim] and
    [parseInt] skip, recognised on their UTF-8 encodings: U+0009 to U+000D and
    U+0020; U+00A0; U+1680, U+2000 to U+200A, U+2028, U+2029, U+202F, U+205F,
    U+3000 and U+FEFF. *)
Definition space1 (a : ascii) : bool :=
  ((9 <=? code a) && (code a <=? 13)) || (code a =? 32).

Definition space2 (a b : ascii) : bool :=
  (code a =? 194) && (code b =? 160).

Definition space3 (a b c : ascii) : bool :=
  let '(x, y, z) := (code a, code b, code c) in
  ((x =? 225) && (y =? 154) && (z =? 128))
  || ((x =? 226) && (y =? 128)
      && (((128 <=? z) && (z <=? 138)) || (z =? 168) || (z =? 169) || (z =? 175)))
  || ((x =? 226) && (y =? 129) && (z =? 159))
  || ((x =? 227) && (y =? 128) && (z =? 128))
  || ((x =? 239) && (y =? 187) && (z =? 191)).

(** Drops the white space at the front of [cs]; with [back] the list is a
    reversed string, so that the bytes of a code point come last to first. *)
Fixpoint drop_space (back : bool) (cs : list ascii) : list ascii :=
  match cs with
  | a :: r1 =>
      if space1 a then drop_space back r1
      else
        match r1 with
        | b :: r2 =>
            if (if back then space2 b a else space2 a b) then drop_space back r2
            else
              match r2 with
              | c :: r3 =>
                  if (if back then space3 c b a else space3 a b c)
                  then drop_space back r3
                  else cs
              | [] => cs
              end
        | [] => cs
        end
  | [] => []
  end.

(** [s.trim()] *)
Definition trim (s : string) : string :=
  string_of_list_ascii
    (rev (drop_space true (rev (drop_space false (list_ascii_of_string s))))).

(** [s.split(sep)] for a one-character separator. *)
Fixpoint split (sep : ascii) (s : string) : list string :=
  match s with
  | EmptyString => [EmptyString]
  | String c rest =>
      if Ascii.eqb c sep then EmptyString :: split sep rest
      else
        match split sep rest with
        | part :: parts => String c part :: parts
        | [] => [String c EmptyString]
        end
  end.

(** The value of [c] as a digit of the given radix. *)
Definition digit (radix : Z) (c : ascii) : option Z :=
  let n := code c in
  let v :=
    if (48 <=? n) && (n <=? 57) then n - 48
    else if (97 <=? n) && (n <=? 122) then n - 87
    else if (65 <=? n) && (n <=? 90) then n - 55
    else radix in
  if v <? radix then Some v else None.

(** The value of the longest prefix of digits, [None] when it is empty. *)
Fixpoint digits (radix : Z) (cs : list ascii) (acc : option Z) : option Z :=
  match cs with
  | c :: rest =>
      match digit radix c with
      | Some d =>
          digits radix rest
            (Some (radix * match acc with Some a => a | None => 0 end + d))
      | None => acc
      end
  | [] => acc
  end.

(** [parseInt(s)] without a radix: leading white space, a sign, a [0x] or [0X]
    prefix for radix 16, then the longest prefix of digits. *)
Definition parseInt (s : string) : number :=
  let cs := drop_space false (list_ascii_of_string s) in
  let '(negative, cs) :=
    match cs with
    | "-"%char :: r => (true, r)
    | "+"%char :: r => (false, r)
    | _ => (false, cs)
    end in
  let '(radix, cs) :=
    match cs with
    | "0"%char :: "x"%char :: r => (16, r)
    | "0"%char :: "X"%char :: r => (16, r)
    | _ => (10, cs)
    end in
  match digits radix cs None with
  | Some v => Int (if negative then - v else v)
  | None => NaN
  end.

(** [parseInt(v)] on a value that may be [undefined]: the string
    ["undefined"] has no digits. *)
Definition parseInt_opt (v : option string) : number :=
  match v with
  | Some s => parseInt s
  | None => NaN
  end.

(** A number inside a template literal. *)
Definition to_string (n : number) : string :=
  match n with
  | NaN => "NaN"
  | Int z => NilZero.string_of_int (Z.to_int z)
  end.

(** *** UTF-8 decoding

    [buf.toString('utf-8', start, end)] decodes the bytes from [start] to
    [end] (clamped to the buffer).  Every maximal ill-formed part becomes
    U+FFFD; a well-formed sequence is kept as it is. *)

Definition replacement : list byte :=
  [ascii_of_nat 239; ascii_of_nat 191; ascii_of_nat 189].

Inductive lead_kind : Type :=
| Single
| Lead (more : nat) (lo hi : Z)
| Bad.

Definition lead (b : byte) : lead_kind :=
  let n := code b in
  if n <=? 127 then Single
  else if (194 <=? n) && (n <=? 223) then Lead 0 128 191
  else if n =? 224 then Lead 1 160 191
  else if n =? 237 then Lead 1 128 159
  else if (225 <=? n) && (n <=? 239) then Lead 1 128 191
  else if n =? 240 then Lead 2 144 191
  else if n =? 244 then Lead 2 128 143
  else if (241 <=? n) && (n <=? 243) then Lead 2 128 191
  else Bad.

(** [pending] holds the bytes of the sequence being read, last first; [more]
    is the number of continuation bytes still expected after the next one. *)
Fixpoint utf8_from (bs : list byte) (pending : option (list byte * nat * Z * Z))
  : list byte :=
  match bs with
  | [] =>
      match pending with
      | Some _ => replacement
      | None => []
      end
  | b :: rest =>
      let fresh :=
        match lead b with
        | Single => b :: utf8_from rest None
        | Lead more lo hi => utf8_from rest (Some ([b], more, lo, hi))
        | Bad => replacement ++ utf8_from rest None
        end in
      match pending with
      | None => fresh
      | Some (seen, more, lo, hi) =>
          if (lo <=? code b) && (code b <=? hi) then
            match more with
            | O => rev (b :: seen) ++ utf8_from rest None
            | S k => utf8_from rest (Some (b :: seen, k, 128, 191))
            end
          else replacement ++ fresh
      end
  end.

Definition utf8Slice (bs : list byte) : string :=
  string_of_list_ascii (utf8_from bs None).

Definition toString (buf : buffer) (start end_ : Z) : string :=
  let len := Z.of_nat (List.length buf) in
  if len <=? start then ""
  else
    let start := Z.max 0 start in
    let end_ := if len <? end_ then len else end_ in
    if end_ <=? start then ""
    else utf8Slice (firstn (Z.to_nat (end_ - start)) (skipn (Z.to_nat start) buf)).

(** ** Protocol codec *)

(** [createSampQueryPacket(ip, port)].  [ip.split] throws a [TypeError] when
    [ip] is not a string. *)
Definition createSampQueryPacket (ip : option string) (port : option number)
  : result buffer :=
  let packet := alloc 11 in
  let packet := write packet (list_ascii_of_string "SAMP") 0 in
  let! ipParts := match ip with
                  | Some s => Ok (split "." s)
                  | None => Throw TypeError
                  end in
  let! packet :=
    fold_left
      (fun acc i =>
         let! packet := acc in
         writeUInt8 packet (parseInt_opt (nth_error ipParts i)) (4 + i))
      (seq 0 4) (Ok packet) in
  let! packet := writeUInt16LE packet port 8 in
  let! packet := writeUInt8 packet (Int 105) 10 in
  Ok packet.

(** The record built by [parseSampResponse]. *)
Record server_info : Type := {
  online : bool;
  password : bool;
  players : Z;
  maxPlayers : Z;
  hostname : string;
  gamemode : string;
  language : string;
  ip : option string;
  port : option number;
  version : string
}.

(** [parseSampResponse(buffer, ip, port)] *)
Definition parseSampResponse (buffer : buffer) (ip : option string)
    (port : option number) : result server_info :=
  if Z.of_nat (List.length buffer) <? 11 then Throw TooShort
  else
    let offset := 4 in
    let! flag := readUInt8 buffer offset in
    let password := flag =? 1 in
    let offset := offset + 1 in
    let! players := readUInt16LE buffer offset in
    let offset := offset + 2 in
    let! maxPlayers := readUInt16LE buffer offset in
    let offset := offset + 2 in
    let! hostnameLength := readUInt32LE buffer offset in
    let offset := offset + 4 in
    let hostname := toString buffer offset (offset + hostnameLength) in
    let offset := offset + hostnameLength in
    let! gamemodeLength := readUInt32LE buffer offset in
    let offset := offset + 4 in
    let gamemode := toString buffer offset (offset + gamemodeLength) in
    let offset := offset + gamemodeLength in
    let! languageLength := readUInt32LE buffer offset in
    let offset := offset + 4 in
    let language := toString buffer offset (offset + languageLength) in
    Ok {| online := true;
          password := password;
          players := players;
          maxPlayers := maxPlayers;
          hostname := trim hostname;
          gamemode := trim gamemode;
          language := trim language;
          ip := ip;
          port := port;
          version := "SA-MP 0.3.7" |}.

(** ** Mock generator *)

Record template : Type := {
  name : string;
  t_gamemode : string;
  t_language : string;
  t_description : string;
  t_tags : list string;
  averagePlayers : Z
}.

Definition serverTemplates : list template := [
  {| name := "Los Santos Roleplay | LSRP.NET";
     t_gamemode := "Strict Roleplay v3.1";
     t_language := "English";
     t_description :=
       "The largest English SA-MP roleplay server with advanced systems.";
     t_tags := ["Roleplay"; "English"; "Advanced"];
     averagePlayers := 450 |};
  {| name := "Next Generation Gaming | NGG-RP";
     t_gamemode := "NG:RP v5.0";
     t_language := "English";
     t_description :=
       "Next Generation Gaming roleplay server with unique features.";
     t_tags := ["Roleplay"; "English"; "Innovative"];
     averagePlayers := 320 |};
  {| name := "Cops and Robbers | Classic";
     t_gamemode := "CNR v2.5";
     t_language := "English";
     t_description :=
       "Classic Cops and Robbers gameplay with team-based action.";
     t_tags := ["Action"; "Teamplay"; "Classic"];
     averagePlayers := 180 |};
  {| name := "Russian Roleplay | Россия RP";
     t_gamemode := "Russian Roleplay v4.2";
     t_language := "Russian";
     t_description := "Крупнейший русский ролевой сервер SA-MP.";
     t_tags := ["Roleplay"; "Russian"; "Large"];
     averagePlayers := 280 |};
  {| name := "Freeroam & Stunts | [FS]";
     t_gamemode := "Freeroam v1.8";
     t_language := "English";
     t_description := "Freeroam with stunts, races and custom vehicles.";
     t_tags := ["Freeroam"; "Stunts"; "Racing"];
     averagePlayers := 120 |}
].

Definition playerNames : list string := [
  "John_Doe"; "Mike_Johnson"; "Carl_Johnson"; "Franklin_C"; "Trevor_P";
  "Lamar_D"; "Michael_DS"; "Simeon_Y"; "Lester_C"; "Amanda_DS";
  "Jimmy_DS"; "Dave_N"; "Steve_H"; "Floyd_H"; "Andreas_S";
  "Big_Smoke"; "Ryder"; "Sweet"; "Tenpenny"; "Woozie"
].

Record player : Type := {
  id : Z;
  p_name : string;
  score : Z;
  p_ping : Z
}.

Record mock_data : Type := {
  m_online : bool;
  m_password : bool;
  m_players : Z;
  m_maxPlayers : Z;
  m_hostname : string;
  m_gamemode : string;
  m_language : string;
  m_description : string;
  m_mapname : string;
  m_version : string;
  m_website : string;
  m_playersList : list player;
  m_ip : option string;
  m_port : option number;
  m_ping : Z;
  m_tags : list string;
  m_lastRestartHours : Z   (* hours subtracted from the clock for lastRestart *)
}.

(** A string operand of [+] that may be [undefined]. *)
Definition str_or_undefined (v : option string) : string :=
  match v with
  | Some s => s
  | None => "undefined"
  end.

Section Random.

(** [random k] is the value of the [k]-th call of [Math.random()].  A
    computation that draws samples takes the number of calls made so far and
    returns the new count.  [Math.floor(Math.random() * n)] is the floor of
    the exact product: rounding to a double never leaves the range the exact
    product has. *)
Variable random : nat -> Q.

Definition floor_random (n : Z) (calls : nat) : Z * nat :=
  (Qfloor (random calls * inject_Z n), S calls).

(** The loop that fills [playersList]: [todo] iterations from index [i]. *)
Fixpoint push_players (hash : number) (todo : nat) (i : Z) (calls : nat)
  : list player * nat :=
  match todo with
  | O => ([], calls)
  | S todo' =>
      let nameIndex :=
        rem (add hash (Int i)) (Z.of_nat (List.length playerNames)) in
      let name :=
        String.append (str_or_undefined (index playerNames nameIndex))
          (if 0 <? i
           then String.append "_"
                  (to_string (add (rem (add hash (Int i)) 899) (Int 100)))
           else "") in
      let '(score, calls) := floor_random 50000 calls in
      let '(r, calls) := floor_random 200 calls in
      let playerPing := r + 20 in
      let '(others, calls) := push_players hash todo' (i + 1) calls in
      ({| id := i + 1; p_name := name; score := score; p_ping := playerPing |}
         :: others, calls)
  end.

(** [generateRealisticMockData(ip, port)] *)
Definition generateRealisticMockData (ip : option string)
    (port : option number) (calls : nat) : result (mock_data * nat) :=
  let! parts := match ip with
                | Some s => Ok (split "." s)
                | None => Throw TypeError
                end in
  let hash :=
    add (fold_left (fun a b => add a (parseInt b)) parts (Int 0))
        (to_number port) in
  let templateIndex := rem hash (Z.of_nat (List.length serverTemplates)) in
  let! template := match index serverTemplates templateIndex with
                   | Some t => Ok t
                   | None => Throw TypeError
                   end in
  let basePlayers := averagePlayers template in
  let '(r, calls) := floor_random 100 calls in
  let players := Z.max 10 (Z.min 1000 (basePlayers + r - 50)) in
  let maxPlayers := 1000 in
  let '(r, calls) := floor_random 150 calls in
  let ping := r + 30 in
  let showPlayers := Z.min players 25 in
  let '(playersList, calls) :=
    push_players hash (Z.to_nat showPlayers) 0 calls in
  let password := negb (Qle_bool (random calls) (8 # 10)) in
  let calls := S calls in
  let '(hours, calls) := floor_random 72 calls in
  Ok ({| m_online := true;
         m_password := password;
         m_players := players;
         m_maxPlayers := maxPlayers;
         m_hostname := name template;
         m_gamemode := t_gamemode template;
         m_language := t_language template;
         m_description := t_description template;
         m_mapname := "San Andreas";
         m_version := "SA-MP 0.3.7";
         m_website := "https://example-samp.com";
         m_playersList := playersList;
         m_ip := ip;
         m_port := port;
         m_ping := ping;
         m_tags := t_tags template;
         m_lastRestartHours := hours |}, calls).

End Random.

(** ** Query transport

    [queryRealSampServer] registers callbacks on a socket and a timer; the
    runtime calls them as events arrive.  The state below is what the
    callbacks share; [trace] records the effects, latest first. *)

Inductive failure : Type :=
| QueryTimeout                  (* 查询超时 (5秒) *)
| ParseFailed (e : js_error)    (* 解析响应失败: ... *)
| NetworkError (e : string)     (* 网络错误: ... *)
| SendFailed (e : string)       (* 发送失败: ... *)
| Thrown (e : js_error).        (* an exception of the executor itself *)

Inductive outcome : Type :=
| Resolved (info : server_info)
| Rejected (f : failure).

Inductive action : Type :=
| CreateSocket
| SetTimeout (ms : Z)
| Send (packet : buffer) (port : option number) (address : option string)
| ClearTimeout
| Close
| Settle (o : outcome)
| Uncaught (e : js_error).

Record exchange : Type := {
  socket_open : bool;
  timer : bool;              (* the timer is armed *)
  listening : bool;          (* the callbacks are registered *)
  promise : option outcome;
  trace : list action
}.

Definition log (a : action) (st : exchange) : exchange :=
  {| socket_open := socket_open st; timer := timer st;
     listening := listening st; promise := promise st;
     trace := a :: trace st |}.

Definition set_timer (armed : bool) (st : exchange) : exchange :=
  {| socket_open := socket_open st; timer := armed;
     listening := listening st; promise := promise st; trace := trace st |}.

Definition clearTimeout (st : exchange) : exchange :=
  log ClearTimeout (set_timer false st).

(** [client.close()]: dgram throws when the socket is not running. *)
Definition close (st : exchange) : result exchange :=
  if socket_open st then
    Ok (log Close
          {| socket_open := false; timer := timer st;
             listening := listening st; promise := promise st;
             trace := trace st |})
  else Throw NotRunning.

(** [resolve] and [reject]: only the first call settles the promise. *)
Definition settle (o : outcome) (st : exchange) : exchange :=
  match promise st with
  | None =>
      log (Settle o)
        {| socket_open := socket_open st; timer := timer st;
           listening := listening st; promise := Some o; trace := trace st |}
  | Some _ => st
  end.

(** An exception that leaves a callback is caught by nobody. *)
Definition callback (body : result exchange) (st : exchange) : exchange :=
  match body with
  | Ok st' => st'
  | Throw e => log (Uncaught e) st
  end.

Definition timeout : Z := 5000.

Section Exchange.

Variable ip : option string.
Variable port : option number.

Definition on_timeout (st : exchange) : exchange :=
  callback (let! st := close st in
            Ok (settle (Rejected QueryTimeout) st)) st.

Definition on_message (message : buffer) (st : exchange) : exchange :=
  let st := clearTimeout st in
  callback (let! st := close st in
            match parseSampResponse message ip port with
            | Ok serverInfo => Ok (settle (Resolved serverInfo) st)
            | Throw error => Ok (settle (Rejected (ParseFailed error)) st)
            end) st.

Definition on_error (error : string) (st : exchange) : exchange :=
  let st := clearTimeout st in
  callback (let! st := close st in
            Ok (settle (Rejected (NetworkError error)) st)) st.

Definition on_sent (error : option string) (st : exchange) : exchange :=
  match error with
  | Some e =>
      let st := clearTimeout st in
      callback (let! st := close st in
                Ok (settle (Rejected (SendFailed e)) st)) st
  | None => st
  end.

(** [client.send] checks its arguments before anything is sent: a port that
    is not an integer from 1 to 65535 is refused with an exception. *)
Definition send_check : result unit :=
  match port with
  | Some (Int p) =>
      if (1 <=? p) && (p <=? 65535) then Ok tt else Throw RangeError
  | _ => Throw RangeError
  end.

(** The executor of the promise, up to the call of [client.send].  An
    exception inside it rejects the promise. *)
Definition start : exchange :=
  let st := {| socket_open := true; timer := false; listening := false;
               promise := None; trace := [CreateSocket] |} in
  match createSampQueryPacket ip port with
  | Throw e => settle (Rejected (Thrown e)) st
  | Ok queryPacket =>
      let st := log (SetTimeout timeout) (set_timer true st) in
      let st := {| socket_open := socket_open st; timer := timer st;
                   listening := true; promise := promise st;
                   trace := trace st |} in
      match send_check with
      | Throw e => settle (Rejected (Thrown e)) st
      | Ok _ => log (Send queryPacket port ip) st
      end
  end.

End Exchange.

(** What the network and the runtime do during one exchange: the events, in
    the order of their dispatch, each with the time in milliseconds since the
    timer was set. *)
Inductive event : Type :=
| Message (message : buffer)
| SocketError (error : string)
| SendDone (error : option string).

Definition network := list (Z * event).

Definition dispatch (ip : option string) (port : option number) (ev : event)
    (st : exchange) : exchange :=
  if listening st then
    match ev with
    | Message message => on_message ip port message st
    | SocketError error => on_error error st
    | SendDone error => on_sent error st
    end
  else st.

(** The timer callback runs once, if the timer is still armed. *)
Definition fire_timer (st : exchange) : exchange :=
  if timer st then on_timeout (set_timer false st) else st.

(** The timer fires before the first event that is due at or after the delay,
    and at the latest when nothing else is left to happen. *)
Fixpoint deliver (ip : option string) (port : option number) (net : network)
    (st : exchange) : exchange :=
  match net with
  | [] => fire_timer st
  | (t, ev) :: rest =>
      let st := if timeout <=? t then fire_timer st else st in
      deliver ip port rest (dispatch ip port ev st)
  end.

(** [queryRealSampServer(ip, port)], run against the events of [net]. *)
Definition queryRealSampServer (ip : option string) (port : option number)
    (net : network) : exchange :=
  deliver ip port net (start ip port).

Definition history (st : exchange) : list action := rev (trace st).

(** ** The endpoints *)

Inductive source : Type := real | mock.

(** The [data] of a response: what [queryRealSampServer] resolved to, or the
    generated record. *)
Inductive data : Type :=
| ServerInfo (info : server_info)
| MockData (m : mock_data).

(** A value used as a condition: [undefined] and the empty string are false. *)
Definition truthy (v : option string) : bool :=
  match v with
  | None => false
  | Some s => negb (String.eqb s "")
  end.

(** What becomes of one request to [GET /api/samp-server]. *)
Inductive response : Type :=
| BadRequest (code : string)               (* status 400 *)
| Json (d : data) (query_port : number) (metadata_source : source)
       (metadata_error : option failure)
| Unhandled (e : js_error)                 (* the async handler rejects *)
| Pending.                                 (* the awaited promise never settles *)

Section Endpoints.

Variable random : nat -> Q.

(** [app.get('/api/samp-server', ...)] with the query parameters [ip] and
    [port], each a string or missing. *)
Definition get_samp_server (ip port : option string) (net : network)
    (calls : nat) : response :=
  if negb (truthy ip) || negb (truthy port) then BadRequest "MISSING_PARAMS"
  else
    let portNum := parseInt_opt port in
    match portNum with
    | NaN => BadRequest "INVALID_PORT"
    | Int p =>
        if (p <? 1) || (65535 <? p) then BadRequest "INVALID_PORT"
        else
          match promise (queryRealSampServer ip (Some portNum) net) with
          | Some (Resolved serverInfo) =>
              Json (ServerInfo serverInfo) portNum real None
          | Some (Rejected error) =>
              match generateRealisticMockData random ip (Some portNum) calls with
              | Ok (mockData, _) =>
                  Json (MockData mockData) portNum mock (Some error)
              | Throw e => Unhandled e
              end
          | None => Pending
          end
    end.

(** An element of the [servers] array of a batch request: [ip] is a string
    or missing, [port] a number or missing. *)
Record server : Type := {
  s_ip : option string;
  s_port : option number
}.

Record item : Type := {
  success : bool;
  i_data : data;
  i_query : server;
  i_metadata : option source
}.

Inductive batch_response : Type :=
| BatchBadRequest (received : option nat)  (* status 400 *)
| BatchJson (results : list item) (total : nat)
| BatchUnhandled (e : js_error)
| BatchPending.

Inductive loop_result : Type :=
| Done (results : list item)
| Raised (e : js_error)
| Stuck.

Definition push (r : item) (rest : loop_result) : loop_result :=
  match rest with
  | Done results => Done (r :: results)
  | other => other
  end.

(** The loop over [servers]: the exchange of the k-th element meets the
    k-th network behaviour. *)
Fixpoint query_servers (servers : list server) (nets : list network)
    (calls : nat) : loop_result :=
  match servers with
  | [] => Done []
  | server :: rest =>
      match promise (queryRealSampServer (s_ip server) (s_port server)
                       (hd [] nets)) with
      | Some (Resolved data) =>
          push {| success := true; i_data := ServerInfo data;
                  i_query := server; i_metadata := None |}
               (query_servers rest (tl nets) calls)
      | Some (Rejected error) =>
          match generateRealisticMockData random (s_ip server) (s_port server)
                  calls with
          | Ok (mockData, calls) =>
              push {| success := true; i_data := MockData mockData;
                      i_query := server; i_metadata := Some mock |}
                   (query_servers rest (tl nets) calls)
          | Throw e => Raised e
          end
      | None => Stuck
      end
  end.

(** [app.post('/api/samp-servers', ...)]; [servers] is [None] when the body
    has no array under that name. *)
Definition post_samp_servers (servers : option (list server))
    (nets : list network) (calls : nat) : batch_response :=
  match servers with
  | None => BatchBadRequest None
  | Some servers =>
      if (5 <? List.length servers)%nat
      then BatchBadRequest (Some (List.length servers))
      else
        match query_servers servers nets calls with
        | Done results => BatchJson results (List.length results)
        | Raised e => BatchUnhandled e
        | Stuck => BatchPending
        end
  end.

End Endpoints.

(** * Vocabulary of the properties *)

(** ** Well-formed targets *)

Definition octet (z : Z) : bool := (0 <=? z) && (z <=? 255).

(** The four octets of an address, as the program reads them: the parts
    between the dots, each through [parseInt]. *)
Definition octets (address : string) : option (Z * Z * Z * Z) :=
  match map parseInt (split "." address) with
  | [Int a; Int b; Int c; Int d] =>
      if octet a && octet b && octet c && octet d then Some (a, b, c, d)
      else None
  | _ => None
  end.

Definition valid_port (p : Z) : bool := (1 <=? p) && (p <=? 65535).

(** An element of a batch that is a target: a string address of four octets
    and a numeric port from 1 to 65535. *)
Definition valid_target (s : server) : bool :=
  match s_ip s, s_port s with
  | Some address, Some (Int p) =>
      match octets address with
      | Some _ => valid_port p
      | None => false
      end
  | _, _ => false
  end.

(** The usual dotted notation of an address. *)
Definition dotted (a b c d : Z) : string :=
  String.append (to_string (Int a))
    (String "." (String.append (to_string (Int b))
       (String "." (String.append (to_string (Int c))
          (String "." (to_string (Int d))))))).

Fixpoint no_dot (s : string) : bool :=
  match s with
  | EmptyString => true
  | String c rest => negb (Ascii.eqb c ".") && no_dot rest
  end.

(** The decimal notation of [n] has no dot and [parseInt] reads it back. *)
Definition reads_back (n : Z) : bool :=
  no_dot (to_string (Int n))
  && match parseInt (to_string (Int n)) with
     | Int m => m =? n
     | NaN => false
     end.

(** ** Responses *)





Definition le16 (n : Z) : list byte := [byte_of n; byte_of (n / 2 ^ 8)].

Definition le32 (n : Z) : list byte :=
  [byte_of n; byte_of (n / 2 ^ 8); byte_of (n / 2 ^ 16); byte_of (n / 2 ^ 24)].

(** A string after its 4-byte length. *)
Definition field (s : string) : list byte :=
  le32 (Z.of_nat (String.length s)) ++ list_ascii_of_string s.

(** A response as a server lays it out, following the specification's words:
    a 4-byte header, the password flag, the two counts with their low byte
    first, then hostname, gamemode and language, each after its 4-byte
    length. *)
Definition serverSideEncode (header : string) (password : bool)
    (players maxPlayers : Z) (hostname gamemode language : string) : buffer :=
  list_ascii_of_string header
  ++ [byte_of (if password then 1 else 0)]
  ++ le16 players ++ le16 maxPlayers
  ++ field hostname ++ field gamemode ++ field language.


(** ** Exchanges *)

(** Every callback follows one pattern: close the socket, then settle. *)
Definition close_then_settle (o : outcome) (st : exchange) : exchange :=
  callback (let! st := close st in Ok (settle o st)) st.

(** What the message callback settles the promise with. *)
Definition decoded (ip : option string) (port : option number)
    (message : buffer) : outcome :=
  match parseSampResponse message ip port with
  | Ok serverInfo => Resolved serverInfo
  | Throw error => Rejected (ParseFailed error)
  end.

(** While the promise is pending the timer is armed and the socket is open. *)
Definition waiting (st : exchange) : Prop :=
  promise st = None -> timer st = true /\ socket_open st = true.




(** ** Batches *)

(** What the result at one position of a batch is, given the target at that
    position and the network behaviour its exchange met. *)
Definition result_of (random : nat -> Q) (target : server) (net : network)
    (r : item) : Prop :=
  success r = true /\ i_query r = target
  /\ match promise (queryRealSampServer (s_ip target) (s_port target) net) with
     | Some (Resolved info) =>
         i_data r = ServerInfo info /\ i_metadata r = None
     | _ =>
         i_metadata r = Some mock
         /\ exists calls m calls',
              generateRealisticMockData random (s_ip target) (s_port target)
                calls = Ok (m, calls')
              /\ i_data r = MockData m
     end.

(** Three targets; the second exchange fails with a socket error, the other
    two receive a response. *)
Definition three_targets : list server := [
  {| s_ip := Some "51.79.247.157"; s_port := Some (Int 7777) |};
  {| s_ip := Some "10.0.0.2"; s_port := Some (Int 7778) |};
  {| s_ip := Some "192.168.1.20"; s_port := Some (Int 7779) |}
].

Definition three_nets : list network :=
  let message := serverSideEncode "SAMP" false 42 100 " MyServer " "DM" "EN" in
  [ [(1, SendDone None); (40, Message message)];
    [(1, SendDone None); (25, SocketError "ECONNREFUSED")];
    [(1, SendDone None); (60, Message message)] ].

(** ** Packets of any address *)

(** A value that [writeUInt8] (with [max] 255) or [writeUInt16LE] (with [max]
    65535) accepts. *)
Definition fits (max : Z) (n : number) : bool :=
  match n with
  | NaN => true
  | Int v => (0 <=? v) && (v <=? max)
  end.

(** The integer a typed array stores for an accepted value. *)
Definition written (n : number) : Z :=
  match n with
  | Int v => v
  | NaN => 0
  end.

(** [parseInt(ip.split('.')[i])] *)
Definition part (address : string) (i : nat) : number :=
  parseInt_opt (nth_error (split "." address) i).

(** ** Generated records *)

(** The key [generateRealisticMockData] computes from a string address. *)
Definition hash_of (address : string) (port : option number) : number :=
  add (fold_left (fun a b => add a (parseInt b)) (split "." address) (Int 0))
      (to_number port).

(** Every sample of [Math.random] is in [0, 1). *)
Definition in_unit (random : nat -> Q) : Prop :=
  forall k, (0 <= random k)%Q /\ (random k < 1)%Q.

(** The ranges of a generated record when the samples are in [0, 1). *)
Definition plausible (m : mock_data) : Prop :=
  (exists t,
     In t serverTemplates /\ m_hostname m = name t
     /\ averagePlayers t - 50 <= m_players m <= averagePlayers t + 49)
  /\ 70 <= m_players m <= 499
  /\ List.length (m_playersList m) = 25%nat
  /\ 30 <= m_ping m <= 179
  /\ Forall (fun pl => 0 <= score pl <= 49999 /\ 20 <= p_ping pl <= 219)
       (m_playersList m)
  /\ 0 <= m_lastRestartHours m <= 71.

(** ** Traces *)

Definition is_close (a : action) : bool :=
  match a with Close => true | _ => false end.

Definition is_settle (a : action) : bool :=
  match a with Settle _ => true | _ => false end.

(** The effects of the executor: creating the socket, setting the timer,
    sending. *)
Definition is_setup (a : action) : bool :=
  match a with
  | CreateSocket | SetTimeout _ | Send _ _ _ => true
  | _ => false
  end.

(** What an event makes a pending exchange report; the completion of the send
    without an error reports nothing. *)
Definition reported (ip : option string) (port : option number) (ev : event)
  : option outcome :=
  match ev with
  | Message message => Some (decoded ip port message)
  | SocketError error => Some (Rejected (NetworkError error))
  | SendDone (Some error) => Some (Rejected (SendFailed error))
  | SendDone None => None
  end.

(** The trace has one [Close] exactly when the socket is closed, and one
    [Settle] exactly when the promise is settled. *)
Definition tidy (st : exchange) : Prop :=
  List.length (filter is_close (trace st))
  = (if socket_open st then 0 else 1)%nat
  /\ List.length (filter is_settle (trace st))
     = (match promise st with None => 0 | Some _ => 1 end)%nat.

(** * Properties *)

(** ** Well-formed targets *)

Lemma octets_inv address a b c d :
  octets address = Some (a, b, c, d) ->
  exists sa sb sc sd,
    split "." address = [sa; sb; sc; sd]
    /\ parseInt sa = Int a /\ parseInt sb = Int b
    /\ parseInt sc = Int c /\ parseInt sd = Int d
    /\ (0 <= a <= 255) /\ (0 <= b <= 255) /\ (0 <= c <= 255) /\ (0 <= d <= 255).
Proof.
  unfold octets, octet.
  destruct (split "." address) as [|sa [|sb [|sc [|sd [|? ?]]]]]; cbn [map];
    try discriminate.
  - destruct (parseInt sa); discriminate.
  - destruct (parseInt sa), (parseInt sb); discriminate.
  - destruct (parseInt sa), (parseInt sb), (parseInt sc); discriminate.
  - destruct (parseInt sa) as [|a'] eqn:Ha, (parseInt sb) as [|b'] eqn:Hb,
      (parseInt sc) as [|c'] eqn:Hc, (parseInt sd) as [|d'] eqn:Hd;
      try discriminate.
    destruct (_ && _) eqn:E; [|discriminate].
    intros [= <- <- <- <-].
    rewrite !andb_true_iff, !Z.leb_le in E.
    exists sa, sb, sc, sd.
    repeat split; first [reflexivity | assumption | lia].
  - destruct (parseInt sa), (parseInt sb), (parseInt sc), (parseInt sd);
      discriminate.
Qed.

Lemma split_no_dot s : no_dot s = true -> split "." s = [s].
Proof.
  induction s as [|c s IH]; cbn [no_dot split]; [reflexivity|].
  intros H. apply andb_prop in H as [Hc Hs].
  destruct (Ascii.eqb c "."); [discriminate|]. now rewrite IH.
Qed.

Lemma split_append s rest :
  no_dot s = true ->
  split "." (String.append s (String "." rest)) = s :: split "." rest.
Proof.
  induction s as [|c s IH]; cbn [no_dot split String.append].
  - intros _. reflexivity.
  - intros H. apply andb_prop in H as [Hc Hs].
    destruct (Ascii.eqb c "."); [discriminate|]. now rewrite IH.
Qed.

Lemma octet_reads_back n :
  0 <= n <= 255 ->
  no_dot (to_string (Int n)) = true /\ parseInt (to_string (Int n)) = Int n.
Proof.
  intros Hn.
  assert (forallb (fun k => reads_back (Z.of_nat k)) (seq 0 256) = true) as A
    by (vm_compute; reflexivity).
  rewrite forallb_forall in A.
  specialize (A (Z.to_nat n)). rewrite Z2Nat.id in A by lia.
  unfold reads_back in A.
  assert (In (Z.to_nat n) (seq 0 256)) as I by (apply in_seq; lia).
  apply A, andb_prop in I as [A1 A2].
  split; [exact A1|].
  destruct (parseInt (to_string (Int n))); [discriminate|].
  apply Z.eqb_eq in A2. now subst.
Qed.

(** Every address in dotted notation is well-formed. *)
Lemma octets_dotted a b c d :
  0 <= a <= 255 -> 0 <= b <= 255 -> 0 <= c <= 255 -> 0 <= d <= 255 ->
  octets (dotted a b c d) = Some (a, b, c, d).
Proof.
  intros Ha Hb Hc Hd.
  destruct (octet_reads_back a Ha) as [Na Pa].
  destruct (octet_reads_back b Hb) as [Nb Pb].
  destruct (octet_reads_back c Hc) as [Nc Pc].
  destruct (octet_reads_back d Hd) as [Nd Pd].
  unfold octets, dotted.
  rewrite !split_append, split_no_dot by assumption.
  cbn [map]. rewrite Pa, Pb, Pc, Pd.
  unfold octet.
  replace ((0 <=? a) && (a <=? 255)) with true
    by (symmetry; rewrite andb_true_iff, !Z.leb_le; lia).
  replace ((0 <=? b) && (b <=? 255)) with true
    by (symmetry; rewrite andb_true_iff, !Z.leb_le; lia).
  replace ((0 <=? c) && (c <=? 255)) with true
    by (symmetry; rewrite andb_true_iff, !Z.leb_le; lia).
  replace ((0 <=? d) && (d <=? 255)) with true
    by (symmetry; rewrite andb_true_iff, !Z.leb_le; lia).
  reflexivity.
Qed.

(** ** Bytes *)

Lemma byte_val_byte_of z : 0 <= z <= 255 -> byte_val (byte_of z) = z.
Proof.
  intros Hz. unfold byte_val, byte_of.
  rewrite Z.mod_small by lia.
  rewrite N_ascii_embedding by lia. lia.
Qed.

Lemma byte_val_range b : 0 <= byte_val b <= 255.
Proof.
  unfold byte_val. pose proof (N_ascii_bounded b). lia.
Qed.

Lemma writeUInt8_in_range buf v offset :
  0 <= v <= 255 -> (offset < List.length buf)%nat ->
  writeUInt8 buf (Int v) offset = Ok (store buf offset (byte_of v)).
Proof.
  intros Hv Ho. unfold writeUInt8.
  replace (255 <? v) with false by (symmetry; apply Z.ltb_ge; lia).
  replace (v <? 0) with false by (symmetry; apply Z.ltb_ge; lia).
  cbn [orb]. apply Nat.ltb_lt in Ho. now rewrite Ho.
Qed.

Lemma writeUInt16LE_in_range buf v offset :
  0 <= v <= 65535 -> (offset + 1 < List.length buf)%nat ->
  writeUInt16LE buf (Some (Int v)) offset
  = Ok (store (store buf offset (byte_of v)) (S offset) (byte_of (v / 256))).
Proof.
  intros Hv Ho. unfold writeUInt16LE, to_number.
  replace (65535 <? v) with false by (symmetry; apply Z.ltb_ge; lia).
  replace (v <? 0) with false by (symmetry; apply Z.ltb_ge; lia).
  cbn [orb]. apply Nat.ltb_lt in Ho. now rewrite Ho.
Qed.

(** The packet of a well-formed target. *)
Lemma createSampQueryPacket_valid address a b c d p :
  octets address = Some (a, b, c, d) -> 1 <= p <= 65535 ->
  createSampQueryPacket (Some address) (Some (Int p))
  = Ok (list_ascii_of_string "SAMP"
        ++ [byte_of a; byte_of b; byte_of c; byte_of d;
            byte_of p; byte_of (p / 256); "i"%char]).
Proof.
  intros Ho Hp.
  destruct (octets_inv _ _ _ _ _ Ho)
    as (sa & sb & sc & sd & Hs & Ha & Hb & Hc & Hd & ? & ? & ? & ?).
  unfold createSampQueryPacket. cbn [bind]. rewrite Hs.
  cbn [seq fold_left nth_error parseInt_opt bind].
  rewrite Ha, Hb, Hc, Hd.
  cbn [alloc repeat list_ascii_of_string write store Nat.add].
  rewrite writeUInt8_in_range by (cbn; lia). cbn [bind store].
  rewrite writeUInt8_in_range by (cbn; lia). cbn [bind store].
  rewrite writeUInt8_in_range by (cbn; lia). cbn [bind store].
  rewrite writeUInt8_in_range by (cbn; lia). cbn [bind store].
  rewrite writeUInt16LE_in_range by (cbn; lia). cbn [bind store].
  rewrite writeUInt8_in_range by (cbn; lia). cbn [bind store].
  reflexivity.
Qed.

(** C3: for a target whose address reads as four octets from 0 to 255 and
    whose port is from 1 to 65535, [createSampQueryPacket] returns 11 bytes:
    the tag "SAMP", the four octets in order, the port with its low byte
    first, and the byte 0x69 of the information query. *)
Theorem createSampQueryPacket_layout address a b c d p :
  octets address = Some (a, b, c, d) -> 1 <= p <= 65535 ->
  exists o1 o2 o3 o4 lo hi,
    createSampQueryPacket (Some address) (Some (Int p))
    = Ok ["S"; "A"; "M"; "P"; o1; o2; o3; o4; lo; hi; "i"]%char
    /\ byte_val o1 = a /\ byte_val o2 = b /\ byte_val o3 = c /\ byte_val o4 = d
    /\ byte_val lo + byte_val hi * 2 ^ 8 = p
    /\ byte_val "i"%char = 105.
Proof.
  intros Ho Hp.
  destruct (octets_inv _ _ _ _ _ Ho)
    as (sa & sb & sc & sd & _ & _ & _ & _ & _ & ? & ? & ? & ?).
  exists (byte_of a), (byte_of b), (byte_of c), (byte_of d),
    (byte_of p), (byte_of (p / 256)).
  split; [exact (createSampQueryPacket_valid _ _ _ _ _ _ Ho Hp)|].
  assert (0 <= p / 256 <= 255).
  { split; [apply Z.div_pos; lia|].
    apply Z.lt_succ_r, Z.div_lt_upper_bound; lia. }
  rewrite (byte_val_byte_of a), (byte_val_byte_of b), (byte_val_byte_of c),
    (byte_val_byte_of d), (byte_val_byte_of (p / 256)) by lia.
  repeat split; try reflexivity.
  unfold byte_val, byte_of.
  rewrite N_ascii_embedding
    by (pose proof (Z.mod_pos_bound p 256 eq_refl); lia).
  rewrite Z2N.id by (apply Z.mod_pos_bound; lia).
  pose proof (Z.div_mod p 256). lia.
Qed.

Lemma createSampQueryPacket_layout_witness :
  exists o1 o2 o3 o4 lo hi,
    createSampQueryPacket (Some "51.79.247.157") (Some (Int 7777))
    = Ok ["S"; "A"; "M"; "P"; o1; o2; o3; o4; lo; hi; "i"]%char
    /\ byte_val o1 = 51 /\ byte_val o2 = 79 /\ byte_val o3 = 247
    /\ byte_val o4 = 157
    /\ byte_val lo + byte_val hi * 2 ^ 8 = 7777
    /\ byte_val "i"%char = 105.
Proof.
  apply (createSampQueryPacket_layout "51.79.247.157" 51 79 247 157 7777).
  - reflexivity.
  - lia.
Defined.

(** ** Reading a buffer *)



Lemma at_Some_range buf offset b :
  at_ buf offset = Some b -> 0 <= offset < Z.of_nat (List.length buf).
Proof.
  unfold at_. destruct (offset <? 0) eqn:E; [discriminate|].
  apply Z.ltb_ge in E. intros H.
  assert (nth_error buf (Z.to_nat offset) <> None) as N by congruence.
  apply nth_error_Some in N. lia.
Qed.



Lemma readUInt32LE_Ok_range buf offset v :
  readUInt32LE buf offset = Ok v ->
  0 <= offset /\ offset + 3 < Z.of_nat (List.length buf) /\ 0 <= v.
Proof.
  unfold readUInt32LE.
  destruct (at_ buf offset) as [b0|] eqn:E0; [|discriminate].
  destruct (at_ buf (offset + 1)) as [b1|]; [|discriminate].
  destruct (at_ buf (offset + 2)) as [b2|]; [|discriminate].
  destruct (at_ buf (offset + 3)) as [b3|] eqn:E3; [|discriminate].
  intros [= <-].
  apply at_Some_range in E0, E3.
  pose proof (byte_val_range b0). pose proof (byte_val_range b1).
  pose proof (byte_val_range b2). pose proof (byte_val_range b3). lia.
Qed.


(** ** Decoding *)

(** C7: a response of fewer than 11 bytes makes [parseSampResponse] throw its
    "response too short" error; no record is returned. *)
Theorem parseSampResponse_short buffer ip port :
  (List.length buffer < 11)%nat ->
  parseSampResponse buffer ip port = Throw TooShort.
Proof.
  intros H. unfold parseSampResponse.
  replace (Z.of_nat (List.length buffer) <? 11) with true
    by (symmetry; apply Z.ltb_lt; lia).
  reflexivity.
Qed.

Lemma parseSampResponse_short_witness :
  parseSampResponse (list_ascii_of_string "SAMP012345")
    (Some "51.79.247.157") (Some (Int 7777)) = Throw TooShort.
Proof.
  apply parseSampResponse_short. cbn. lia.
Defined.

(** [parseSampResponse] with the offsets of its reads worked out. *)
Lemma parseSampResponse_offsets buffer ip port :
  parseSampResponse buffer ip port
  = if Z.of_nat (List.length buffer) <? 11 then Throw TooShort
    else
      let! flag := readUInt8 buffer 4 in
      let! players := readUInt16LE buffer 5 in
      let! maxPlayers := readUInt16LE buffer 7 in
      let! hl := readUInt32LE buffer 9 in
      let! gl := readUInt32LE buffer (13 + hl) in
      let! ll := readUInt32LE buffer (13 + hl + 4 + gl) in
      Ok {| online := true;
            password := flag =? 1;
            players := players;
            maxPlayers := maxPlayers;
            hostname := trim (toString buffer 13 (13 + hl));
            gamemode := trim (toString buffer (13 + hl + 4) (13 + hl + 4 + gl));
            language :=
              trim (toString buffer (13 + hl + 4 + gl + 4)
                      (13 + hl + 4 + gl + 4 + ll));
            ip := ip;
            port := port;
            version := "SA-MP 0.3.7" |}.
Proof. reflexivity. Qed.






(** *** Decoding what a server encodes *)

Lemma length_list_ascii_of_string s :
  List.length (list_ascii_of_string s) = String.length s.
Proof.
  induction s as [|c s IH]; cbn; [reflexivity | now rewrite IH].
Qed.

Lemma at_app buf1 buf2 k :
  0 <= k -> at_ (buf1 ++ buf2) (Z.of_nat (List.length buf1) + k) = at_ buf2 k.
Proof.
  intros Hk. unfold at_.
  replace (Z.of_nat (List.length buf1) + k <? 0) with false
    by (symmetry; apply Z.ltb_ge; lia).
  replace (k <? 0) with false by (symmetry; apply Z.ltb_ge; lia).
  replace (Z.to_nat (Z.of_nat (List.length buf1) + k))
    with (List.length buf1 + Z.to_nat k)%nat by lia.
  rewrite nth_error_app2 by lia. f_equal. lia.
Qed.

Lemma byte_val_byte_of_mod z : byte_val (byte_of z) = z mod 256.
Proof.
  unfold byte_val, byte_of.
  pose proof (Z.mod_pos_bound z 256 eq_refl).
  rewrite N_ascii_embedding by lia. lia.
Qed.

Lemma readUInt32LE_le32 pre n post :
  0 <= n < 2 ^ 32 ->
  readUInt32LE (pre ++ le32 n ++ post) (Z.of_nat (List.length pre)) = Ok n.
Proof.
  intros Hn. unfold readUInt32LE.
  rewrite <- (Z.add_0_r (Z.of_nat (List.length pre))) at 1.
  rewrite !at_app by lia.
  change (at_ (le32 n ++ post) 0) with (Some (byte_of n)).
  change (at_ (le32 n ++ post) 1) with (Some (byte_of (n / 2 ^ 8))).
  change (at_ (le32 n ++ post) 2) with (Some (byte_of (n / 2 ^ 16))).
  change (at_ (le32 n ++ post) 3) with (Some (byte_of (n / 2 ^ 24))).
  cbv beta iota. rewrite !byte_val_byte_of_mod. f_equal.
  change (2 ^ 8) with 256. change (2 ^ 16) with 65536.
  change (2 ^ 24) with 16777216. change (2 ^ 32) with 4294967296 in Hn.
  replace (n / 65536) with (n / 256 / 256)
    by (rewrite Z.div_div by lia; reflexivity).
  replace (n / 16777216) with (n / 256 / 256 / 256)
    by (rewrite !Z.div_div by lia; reflexivity).
  pose proof (Z.div_mod n 256 ltac:(lia)).
  pose proof (Z.div_mod (n / 256) 256 ltac:(lia)).
  pose proof (Z.div_mod (n / 256 / 256) 256 ltac:(lia)).
  assert (0 <= n / 256 / 256 / 256 < 256).
  { split; [repeat apply Z.div_pos; lia|].
    repeat (apply Z.div_lt_upper_bound; [lia|]). lia. }
  rewrite (Z.mod_small (n / 256 / 256 / 256)) by lia.
  generalize dependent (n / 256 / 256 / 256). intros q3.
  generalize dependent (n / 256 / 256). intros q2.
  generalize dependent (n / 256). intros q1.
  generalize dependent (n mod 256). generalize dependent (q1 mod 256).
  generalize dependent (q2 mod 256). intros; lia.
Qed.

Lemma readUInt16LE_le16 pre n post :
  0 <= n < 2 ^ 16 ->
  readUInt16LE (pre ++ le16 n ++ post) (Z.of_nat (List.length pre)) = Ok n.
Proof.
  intros Hn. unfold readUInt16LE.
  rewrite <- (Z.add_0_r (Z.of_nat (List.length pre))) at 1.
  rewrite !at_app by lia.
  change (at_ (le16 n ++ post) 0) with (Some (byte_of n)).
  change (at_ (le16 n ++ post) 1) with (Some (byte_of (n / 2 ^ 8))).
  cbv beta iota. rewrite !byte_val_byte_of_mod. f_equal.
  change (2 ^ 8) with 256. change (2 ^ 16) with 65536 in Hn.
  pose proof (Z.div_mod n 256 ltac:(lia)).
  assert (0 <= n / 256 < 256).
  { split; [apply Z.div_pos; lia | apply Z.div_lt_upper_bound; lia]. }
  rewrite (Z.mod_small (n / 256)) by lia. lia.
Qed.

Lemma readUInt8_app pre b post :
  readUInt8 (pre ++ b :: post) (Z.of_nat (List.length pre)) = Ok (byte_val b).
Proof.
  unfold readUInt8.
  rewrite <- (Z.add_0_r (Z.of_nat (List.length pre))).
  rewrite at_app by lia. reflexivity.
Qed.

Lemma toString_app pre s post :
  toString (pre ++ s ++ post) (Z.of_nat (List.length pre))
    (Z.of_nat (List.length pre) + Z.of_nat (List.length s))
  = utf8Slice s.
Proof.
  unfold toString. rewrite !length_app, !Nat2Z.inj_add.
  assert (s = [] \/ 0 < Z.of_nat (List.length s)) as [-> | Hs]
    by (destruct s; [now left | right; cbn; lia]).
  - cbn [List.length Z.of_nat]. rewrite Z.add_0_r.
    destruct (Z.leb_spec
                (Z.of_nat (List.length pre)
                 + (0 + Z.of_nat (List.length post)))
                (Z.of_nat (List.length pre))); [reflexivity|].
    destruct (Z.ltb_spec
                (Z.of_nat (List.length pre)
                 + (0 + Z.of_nat (List.length post)))
                (Z.of_nat (List.length pre))); [lia|].
    rewrite Z.max_r, Z.leb_refl by lia. reflexivity.
  - destruct (Z.leb_spec
                (Z.of_nat (List.length pre)
                 + (Z.of_nat (List.length s) + Z.of_nat (List.length post)))
                (Z.of_nat (List.length pre))); [lia|].
    rewrite Z.max_r by lia.
    destruct (Z.ltb_spec
                (Z.of_nat (List.length pre)
                 + (Z.of_nat (List.length s) + Z.of_nat (List.length post)))
                (Z.of_nat (List.length pre) + Z.of_nat (List.length s)));
      [lia|].
    destruct (Z.leb_spec
                (Z.of_nat (List.length pre) + Z.of_nat (List.length s))
                (Z.of_nat (List.length pre))); [lia|].
    f_equal.
    replace (Z.to_nat (Z.of_nat (List.length pre) + Z.of_nat (List.length s)
                       - Z.of_nat (List.length pre)))
      with (List.length s) by lia.
    rewrite Nat2Z.id, skipn_app, skipn_all, Nat.sub_diag. cbn [skipn app].
    rewrite firstn_app, firstn_all, Nat.sub_diag. cbn [firstn].
    apply app_nil_r.
Qed.

Lemma byte_val_flag (b : bool) :
  (byte_val (byte_of (if b then 1 else 0)) =? 1) = b.
Proof. now destruct b. Qed.

(** X3: whatever a server encodes is decoded to the same values, each string
    trimmed; bytes after the language are ignored. *)
Lemma parseSampResponse_serverSideEncode header pw players maxPlayers
    hostname gamemode language trailing ip port :
  String.length header = 4%nat ->
  0 <= players < 2 ^ 16 -> 0 <= maxPlayers < 2 ^ 16 ->
  Z.of_nat (String.length hostname) < 2 ^ 32 ->
  Z.of_nat (String.length gamemode) < 2 ^ 32 ->
  Z.of_nat (String.length language) < 2 ^ 32 ->
  parseSampResponse
    (serverSideEncode header pw players maxPlayers hostname gamemode language
     ++ trailing) ip port
  = Ok {| online := true;
          password := pw;
          players := players;
          maxPlayers := maxPlayers;
          hostname := trim (utf8Slice (list_ascii_of_string hostname));
          gamemode := trim (utf8Slice (list_ascii_of_string gamemode));
          language := trim (utf8Slice (list_ascii_of_string language));
          ip := ip;
          port := port;
          version := "SA-MP 0.3.7" |}.
Proof.
  intros Hh Hp Hm Hhl Hgl Hll.
  rewrite parseSampResponse_offsets.
  unfold serverSideEncode, field. unfold buffer, byte in *.
  pose proof (length_list_ascii_of_string header) as LH. rewrite Hh in LH.
  pose proof (length_list_ascii_of_string hostname) as Lh.
  pose proof (length_list_ascii_of_string gamemode) as Lg.
  pose proof (length_list_ascii_of_string language) as Ll.
  set (H := list_ascii_of_string header) in *.
  set (hs := list_ascii_of_string hostname) in *.
  set (gs := list_ascii_of_string gamemode) in *.
  set (ls := list_ascii_of_string language) in *.
  set (hl := Z.of_nat (String.length hostname)) in *.
  set (gl := Z.of_nat (String.length gamemode)) in *.
  set (ll := Z.of_nat (String.length language)) in *.
  set (P := le16 players). set (M := le16 maxPlayers).
  set (HL := le32 hl). set (GL := le32 gl). set (LL := le32 ll).
  match goal with |- context [H ++ ?f ++ P ++ _] => set (F := f) end.
  assert (List.length F = 1%nat /\ List.length P = 2%nat
          /\ List.length M = 2%nat /\ List.length HL = 4%nat
          /\ List.length GL = 4%nat /\ List.length LL = 4%nat)
    as (LF & LP & LM & LHL & LGL & LLL) by (repeat split; reflexivity).
  unfold buffer, byte in *.
  rewrite <- !app_assoc.
  match goal with |- context [readUInt8 ?b 4] => set (B := b) end.
  assert ((Z.of_nat (List.length B) <? 11) = false) as ->.
  { apply Z.ltb_ge. subst B. rewrite !length_app. lia. }
  assert (readUInt8 B 4 = Ok (byte_val (byte_of (if pw then 1 else 0)))) as ->.
  { replace 4 with (Z.of_nat (List.length H)) by lia. apply readUInt8_app. }
  assert (readUInt16LE B 5 = Ok players) as ->.
  { replace 5 with (Z.of_nat (List.length (H ++ F)))
      by (rewrite length_app; lia).
    subst B. rewrite (app_assoc H F). now apply readUInt16LE_le16. }
  assert (readUInt16LE B 7 = Ok maxPlayers) as ->.
  { replace 7 with (Z.of_nat (List.length (H ++ F ++ P)))
      by (rewrite !length_app; lia).
    subst B. rewrite (@app_assoc ascii F P), (@app_assoc ascii H (F ++ P)).
    now apply readUInt16LE_le16. }
  assert (readUInt32LE B 9 = Ok hl) as ->.
  { replace 9 with (Z.of_nat (List.length (H ++ F ++ P ++ M)))
      by (rewrite !length_app; lia).
    subst B. rewrite (@app_assoc ascii P M), (@app_assoc ascii F (P ++ M)),
      (@app_assoc ascii H (F ++ P ++ M)).
    apply readUInt32LE_le32. lia. }
  cbn [bind].
  set (pre1 := H ++ F ++ P ++ M ++ HL).
  assert (B = pre1 ++ hs ++ GL ++ gs ++ LL ++ ls ++ trailing) as B1
    by (subst B pre1; now rewrite <- !app_assoc).
  assert (Z.of_nat (List.length pre1) = 13) as L1
    by (subst pre1; rewrite !length_app; lia).
  set (pre2 := pre1 ++ hs).
  assert (B = pre2 ++ GL ++ gs ++ LL ++ ls ++ trailing) as B2
    by (subst pre2; rewrite B1; now rewrite <- !app_assoc).
  assert (Z.of_nat (List.length pre2) = 13 + hl) as L2
    by (subst pre2; rewrite length_app; lia).
  set (pre3 := pre2 ++ GL).
  assert (B = pre3 ++ gs ++ LL ++ ls ++ trailing) as B3
    by (subst pre3; rewrite B2; now rewrite <- !app_assoc).
  assert (Z.of_nat (List.length pre3) = 13 + hl + 4) as L3
    by (subst pre3; rewrite length_app; lia).
  set (pre4 := pre3 ++ gs).
  assert (B = pre4 ++ LL ++ ls ++ trailing) as B4
    by (subst pre4; rewrite B3; now rewrite <- !app_assoc).
  assert (Z.of_nat (List.length pre4) = 13 + hl + 4 + gl) as L4
    by (subst pre4; rewrite length_app; lia).
  set (pre5 := pre4 ++ LL).
  assert (B = pre5 ++ ls ++ trailing) as B5
    by (subst pre5; rewrite B4; now rewrite <- !app_assoc).
  assert (Z.of_nat (List.length pre5) = 13 + hl + 4 + gl + 4) as L5
    by (subst pre5; rewrite length_app; lia).
  assert (readUInt32LE B (13 + hl) = Ok gl) as ->.
  { rewrite B2, <- L2. apply readUInt32LE_le32. lia. }
  cbn [bind].
  assert (readUInt32LE B (13 + hl + 4 + gl) = Ok ll) as ->.
  { rewrite B4, <- L4. apply readUInt32LE_le32. lia. }
  cbn [bind].
  assert (toString B 13 (13 + hl) = utf8Slice hs) as ->.
  { rewrite B1, <- L1. subst hl. rewrite <- Lh. apply toString_app. }
  assert (toString B (13 + hl + 4) (13 + hl + 4 + gl) = utf8Slice gs) as ->.
  { rewrite B3, <- L3. subst gl. rewrite <- Lg. apply toString_app. }
  assert (toString B (13 + hl + 4 + gl + 4) (13 + hl + 4 + gl + 4 + ll)
          = utf8Slice ls) as ->.
  { rewrite B5, <- L5. subst ll. rewrite <- Ll. apply toString_app. }
  now rewrite byte_val_flag.
Qed.

(** ** The mock generator *)

Section MockFacts.

Variable random : nat -> Q.

Lemma push_players_length hash todo i calls :
  List.length (fst (push_players random hash todo i calls)) = todo.
Proof.
  revert i calls. induction todo as [|todo IH]; intros i calls; [reflexivity|].
  cbn [push_players]. unfold floor_random.
  specialize (IH (i + 1) (S (S calls))).
  destruct (push_players random hash todo (i + 1) (S (S calls))).
  cbn [fst List.length] in *. now rewrite IH.
Qed.

Lemma push_players_ids hash todo i calls :
  map id (fst (push_players random hash todo i calls))
  = map (fun k => i + Z.of_nat k) (seq 1 todo).
Proof.
  revert i calls. induction todo as [|todo IH]; intros i calls; [reflexivity|].
  cbn [push_players]. unfold floor_random.
  specialize (IH (i + 1) (S (S calls))).
  destruct (push_players random hash todo (i + 1) (S (S calls))).
  cbn [fst map seq id] in *. rewrite IH. f_equal.
  rewrite <- (seq_shift todo 1), map_map. apply map_ext. intros k. lia.
Qed.

Lemma hash_of_octets address a b c d :
  octets address = Some (a, b, c, d) ->
  fold_left (fun x y => add x (parseInt y)) (split "." address) (Int 0)
  = Int (a + b + c + d).
Proof.
  intros Ho.
  destruct (octets_inv _ _ _ _ _ Ho)
    as (sa & sb & sc & sd & -> & Ha & Hb & Hc & Hd & _).
  cbn [fold_left]. rewrite Ha, Hb, Hc, Hd. reflexivity.
Qed.

Lemma template_of_hash h :
  0 <= h ->
  exists t,
    nth_error serverTemplates (Z.to_nat (h mod 5)) = Some t
    /\ index serverTemplates (rem (Int h) (Z.of_nat (List.length serverTemplates)))
       = Some t.
Proof.
  intros Hh. cbn [rem List.length serverTemplates Z.of_nat].
  change (Z.pos (Pos.of_succ_nat 4)) with 5.
  rewrite Z.rem_mod_nonneg by lia.
  pose proof (Z.mod_pos_bound h 5 eq_refl) as Hm.
  unfold index.
  replace (h mod 5 <? 0) with false by (symmetry; apply Z.ltb_ge; lia).
  destruct (nth_error serverTemplates (Z.to_nat (h mod 5))) as [t|] eqn:E.
  - exists t. split; reflexivity.
  - apply nth_error_None in E. cbn [List.length serverTemplates] in E. lia.
Qed.

(** The record generated for a well-formed target. *)
Lemma generateRealisticMockData_valid address a b c d p calls :
  octets address = Some (a, b, c, d) -> 1 <= p <= 65535 ->
  exists t m calls',
    nth_error serverTemplates (Z.to_nat ((a + b + c + d + p) mod 5)) = Some t
    /\ generateRealisticMockData random (Some address) (Some (Int p)) calls
       = Ok (m, calls')
    /\ m_hostname m = name t
    /\ m_gamemode m = t_gamemode t
    /\ m_language m = t_language t
    /\ m_description m = t_description t
    /\ m_tags m = t_tags t
    /\ m_players m
       = Z.max 10 (Z.min 1000
           (averagePlayers t + Qfloor (random calls * inject_Z 100) - 50))
    /\ m_maxPlayers m = 1000
    /\ m_playersList m
       = fst (push_players random (Int (a + b + c + d + p))
                (Z.to_nat (Z.min (m_players m) 25)) 0 (S (S calls)))
    /\ m_ip m = Some address
    /\ m_port m = Some (Int p).
Proof.
  intros Ho Hp.
  destruct (octets_inv _ _ _ _ _ Ho)
    as (_ & _ & _ & _ & _ & _ & _ & _ & _ & ? & ? & ? & ?).
  destruct (template_of_hash (a + b + c + d + p)) as (t & Ht & Hi); [lia|].
  unfold generateRealisticMockData. cbn [bind to_number].
  rewrite (hash_of_octets _ _ _ _ _ Ho). cbn [add].
  rewrite Hi. cbn [bind]. unfold floor_random.
  destruct (push_players random (Int (a + b + c + d + p)) _ 0 (S (S calls)))
    as [playersList calls1] eqn:E.
  exists t. eexists. eexists.
  split; [exact Ht|]. split; [reflexivity|].
  cbn [m_hostname m_gamemode m_language m_description m_tags m_players
       m_maxPlayers m_playersList m_ip m_port].
  rewrite E. repeat split; reflexivity.
Qed.

End MockFacts.

(** C4: for a well-formed target the template is the one at index
    (sum of the four octets + port) mod 5, whatever [Math.random] returns, and
    two calls agree on hostname, gamemode, language and tags. *)
Theorem generateRealisticMockData_deterministic address a b c d p
    random1 calls1 random2 calls2 :
  octets address = Some (a, b, c, d) -> 1 <= p <= 65535 ->
  exists t m1 m2 calls1' calls2',
    nth_error serverTemplates (Z.to_nat ((a + b + c + d + p) mod 5)) = Some t
    /\ generateRealisticMockData random1 (Some address) (Some (Int p)) calls1
       = Ok (m1, calls1')
    /\ generateRealisticMockData random2 (Some address) (Some (Int p)) calls2
       = Ok (m2, calls2')
    /\ (m_hostname m1 = name t /\ m_gamemode m1 = t_gamemode t
        /\ m_language m1 = t_language t /\ m_tags m1 = t_tags t)
    /\ (m_hostname m2 = m_hostname m1 /\ m_gamemode m2 = m_gamemode m1
        /\ m_language m2 = m_language m1 /\ m_tags m2 = m_tags m1).
Proof.
  intros Ho Hp.
  destruct (generateRealisticMockData_valid random1 _ _ _ _ _ _ calls1 Ho Hp)
    as (t & m1 & c1 & Ht & E1 & Hh1 & Hg1 & Hl1 & _ & Ht1 & _).
  destruct (generateRealisticMockData_valid random2 _ _ _ _ _ _ calls2 Ho Hp)
    as (t' & m2 & c2 & Ht' & E2 & Hh2 & Hg2 & Hl2 & _ & Ht2 & _).
  assert (t' = t) as -> by congruence.
  exists t, m1, m2, c1, c2.
  repeat split; congruence.
Qed.

Lemma generateRealisticMockData_deterministic_witness :
  exists t m1 m2 calls1' calls2',
    nth_error serverTemplates (Z.to_nat ((51 + 79 + 247 + 157 + 7777) mod 5))
    = Some t
    /\ generateRealisticMockData (fun _ => 1 # 4) (Some "51.79.247.157")
         (Some (Int 7777)) 0 = Ok (m1, calls1')
    /\ generateRealisticMockData (fun k => Z.of_nat k # 100)
         (Some "51.79.247.157") (Some (Int 7777)) 7 = Ok (m2, calls2')
    /\ (m_hostname m1 = name t /\ m_gamemode m1 = t_gamemode t
        /\ m_language m1 = t_language t /\ m_tags m1 = t_tags t)
    /\ (m_hostname m2 = m_hostname m1 /\ m_gamemode m2 = m_gamemode m1
        /\ m_language m2 = m_language m1 /\ m_tags m2 = m_tags m1).
Proof.
  apply (generateRealisticMockData_deterministic "51.79.247.157" 51 79 247 157
           7777 (fun _ => 1 # 4) 0%nat (fun k => Z.of_nat k # 100) 7%nat).
  - reflexivity.
  - lia.
Defined.

(** C5: the record generated for a well-formed target has from 10 to 1000
    players, at most [maxPlayers], and a player list of min(players, 25)
    entries whose ids are 1, 2, 3, ... in order. *)
Theorem generateRealisticMockData_bounds random address a b c d p calls :
  octets address = Some (a, b, c, d) -> 1 <= p <= 65535 ->
  exists m calls',
    generateRealisticMockData random (Some address) (Some (Int p)) calls
    = Ok (m, calls')
    /\ 10 <= m_players m <= 1000
    /\ m_players m <= m_maxPlayers m
    /\ Z.of_nat (List.length (m_playersList m)) = Z.min (m_players m) 25
    /\ map id (m_playersList m)
       = map Z.of_nat (seq 1 (List.length (m_playersList m)))
    /\ NoDup (map id (m_playersList m)).
Proof.
  intros Ho Hp.
  destruct (generateRealisticMockData_valid random _ _ _ _ _ _ calls Ho Hp)
    as (t & m & c' & _ & E & _ & _ & _ & _ & _ & Hpl & Hmax & Hlist & _).
  exists m, c'. split; [exact E|].
  assert (10 <= m_players m <= 1000) as Hb by (rewrite Hpl; lia).
  assert (List.length (m_playersList m) = Z.to_nat (Z.min (m_players m) 25))
    as Hlen by (rewrite Hlist at 1; apply push_players_length).
  assert (map id (m_playersList m)
          = map Z.of_nat (seq 1 (List.length (m_playersList m)))) as Hids.
  { rewrite Hlen. rewrite Hlist at 1. rewrite push_players_ids.
    apply map_ext. intros k. lia. }
  repeat split; try lia; try exact Hids.
  rewrite Hids. apply Injective_map_NoDup.
  - intros x y. apply Nat2Z.inj.
  - apply seq_NoDup.
Qed.

Lemma generateRealisticMockData_bounds_witness :
  exists m calls',
    generateRealisticMockData (fun k => Z.of_nat k # 100)
      (Some "51.79.247.157") (Some (Int 7777)) 0 = Ok (m, calls')
    /\ 10 <= m_players m <= 1000
    /\ m_players m <= m_maxPlayers m
    /\ Z.of_nat (List.length (m_playersList m)) = Z.min (m_players m) 25
    /\ map id (m_playersList m)
       = map Z.of_nat (seq 1 (List.length (m_playersList m)))
    /\ NoDup (map id (m_playersList m)).
Proof.
  apply (generateRealisticMockData_bounds (fun k => Z.of_nat k # 100)
           "51.79.247.157" 51 79 247 157 7777 0%nat).
  - reflexivity.
  - lia.
Defined.

(** ** The exchange *)

Lemma on_message_pattern ip port message st :
  on_message ip port message st
  = close_then_settle (decoded ip port message) (clearTimeout st).
Proof.
  unfold on_message, close_then_settle, decoded.
  destruct (close (clearTimeout st)); cbn [bind]; [|reflexivity].
  destruct (parseSampResponse message ip port); reflexivity.
Qed.

Lemma dispatch_cases ip port ev st :
  dispatch ip port ev st = st
  \/ exists o, dispatch ip port ev st = close_then_settle o (clearTimeout st).
Proof.
  unfold dispatch. destruct (listening st); [|now left].
  destruct ev as [message|error|[error|]].
  - right. eexists. apply on_message_pattern.
  - right. eexists. reflexivity.
  - right. eexists. reflexivity.
  - now left.
Qed.

Lemma fire_timer_cases st :
  fire_timer st = st
  \/ fire_timer st = close_then_settle (Rejected QueryTimeout) (set_timer false st).
Proof.
  unfold fire_timer. destruct (timer st); [right|left]; reflexivity.
Qed.

(** *** A settled promise stays as it is *)

Lemma close_then_settle_settled o st o' :
  promise st = Some o' -> promise (close_then_settle o st) = Some o'.
Proof.
  intros H. unfold close_then_settle, close, settle.
  destruct (socket_open st); cbn; rewrite ?H; cbn; rewrite ?H; reflexivity.
Qed.

Lemma dispatch_settled ip port ev st o :
  promise st = Some o -> promise (dispatch ip port ev st) = Some o.
Proof.
  intros H. destruct (dispatch_cases ip port ev st) as [-> | [o' ->]]; [exact H|].
  now apply close_then_settle_settled.
Qed.

Lemma fire_timer_settled st o :
  promise st = Some o -> promise (fire_timer st) = Some o.
Proof.
  intros H. destruct (fire_timer_cases st) as [-> | ->]; [exact H|].
  now apply close_then_settle_settled.
Qed.

Lemma deliver_settled ip port net st o :
  promise st = Some o -> promise (deliver ip port net st) = Some o.
Proof.
  revert st. induction net as [|[t ev] rest IH]; intros st H; cbn [deliver].
  - now apply fire_timer_settled.
  - apply IH, dispatch_settled.
    destruct (timeout <=? t); [now apply fire_timer_settled | exact H].
Qed.

(** *** Every exchange reports an outcome *)

Lemma close_then_settle_reports o st :
  socket_open st = true -> promise st = None ->
  promise (close_then_settle o st) = Some o.
Proof.
  intros Ho Hp. unfold close_then_settle, close, settle.
  rewrite Ho. cbn. rewrite Hp. reflexivity.
Qed.

Lemma close_then_settle_waiting o st :
  socket_open st = true \/ promise st <> None ->
  waiting (close_then_settle o st).
Proof.
  intros H Hp. exfalso.
  destruct (promise st) as [o'|] eqn:E.
  - rewrite (close_then_settle_settled o st o' E) in Hp. discriminate.
  - destruct H as [H|H]; [|congruence].
    rewrite (close_then_settle_reports o st H E) in Hp. discriminate.
Qed.

Lemma dispatch_waiting ip port ev st :
  waiting st -> waiting (dispatch ip port ev st).
Proof.
  intros W. destruct (dispatch_cases ip port ev st) as [-> | [o ->]]; [exact W|].
  apply close_then_settle_waiting. cbn.
  destruct (promise st) eqn:E; [right; discriminate | left; now apply W].
Qed.

Lemma fire_timer_waiting st : waiting st -> waiting (fire_timer st).
Proof.
  intros W. destruct (fire_timer_cases st) as [-> | ->]; [exact W|].
  apply close_then_settle_waiting. cbn.
  destruct (promise st) eqn:E; [right; discriminate | left; now apply W].
Qed.

Lemma fire_timer_reports st :
  waiting st -> exists o, promise (fire_timer st) = Some o.
Proof.
  intros W. destruct (promise st) as [o|] eqn:E.
  - exists o. now apply fire_timer_settled.
  - destruct (W E) as [Ht Ho]. unfold fire_timer. rewrite Ht.
    exists (Rejected QueryTimeout).
    apply close_then_settle_reports; assumption.
Qed.

Lemma deliver_reports ip port net st :
  waiting st -> exists o, promise (deliver ip port net st) = Some o.
Proof.
  revert st. induction net as [|[t ev] rest IH]; intros st W; cbn [deliver].
  - now apply fire_timer_reports.
  - apply IH, dispatch_waiting.
    destruct (timeout <=? t); [now apply fire_timer_waiting | exact W].
Qed.

Lemma start_waiting ip port : waiting (start ip port).
Proof.
  unfold start, waiting.
  destruct (createSampQueryPacket ip port); [|discriminate].
  destruct (send_check port); [|discriminate].
  cbn. auto.
Qed.

(** The promise of [queryRealSampServer] is settled in the end, whatever the
    target and whatever the network does. *)
Lemma queryRealSampServer_reports ip port net :
  exists o, promise (queryRealSampServer ip port net) = Some o.
Proof.
  apply deliver_reports, start_waiting.
Qed.

(** An exception of the executor is the outcome, whatever comes after. *)
Lemma queryRealSampServer_thrown ip port net e :
  promise (start ip port) = Some (Rejected (Thrown e)) ->
  promise (queryRealSampServer ip port net) = Some (Rejected (Thrown e)).
Proof.
  apply deliver_settled.
Qed.

(** *** The socket is closed before the outcome is reported *)







(** *** The timeout *)









(** ** The single-target endpoint *)

(** C1 fails on the code: the address is only checked for presence, and for
    "localhost" (no octets) with a query that gets no answer, or whose send
    fails, the mock generator throws inside the [catch] block: the handler
    neither answers 400 nor returns a record. *)
Theorem get_samp_server_unhandled random calls :
  get_samp_server random (Some "localhost") (Some "7777") [] calls
  = Unhandled TypeError
  /\ get_samp_server random (Some "localhost") (Some "7777")
       [(3, SendDone (Some "getaddrinfo ENOTFOUND"))] calls
     = Unhandled TypeError.
Proof.
  split; reflexivity.
Qed.

(** X14: for an address that reads as four octets the endpoint always
    answers: with status 400 for a bad port, and otherwise with a record whose
    source is "real" exactly when the exchange resolved. *)
Lemma get_samp_server_answers random address a b c d port net calls :
  octets address = Some (a, b, c, d) ->
  (exists code, get_samp_server random (Some address) port net calls
                = BadRequest code)
  \/ exists p,
       parseInt_opt port = Int p /\ 1 <= p <= 65535
       /\ ((exists info,
              promise (queryRealSampServer (Some address) (Some (Int p)) net)
              = Some (Resolved info)
              /\ get_samp_server random (Some address) port net calls
                 = Json (ServerInfo info) (Int p) real None)
           \/ (exists f m calls',
                 promise (queryRealSampServer (Some address) (Some (Int p)) net)
                 = Some (Rejected f)
                 /\ generateRealisticMockData random (Some address)
                      (Some (Int p)) calls = Ok (m, calls')
                 /\ get_samp_server random (Some address) port net calls
                    = Json (MockData m) (Int p) mock (Some f))).
Proof.
  intros Ho. unfold get_samp_server.
  destruct (negb (truthy (Some address)) || negb (truthy port)); [left; eauto|].
  destruct (parseInt_opt port) as [|p] eqn:Ep; [left; eauto|].
  destruct ((p <? 1) || (65535 <? p)) eqn:Er; [left; eauto|].
  apply orb_false_elim in Er as [E1 E2].
  apply Z.ltb_ge in E1, E2.
  right. exists p. split; [reflexivity|]. split; [lia|].
  destruct (queryRealSampServer_reports (Some address) (Some (Int p)) net)
    as [[info|f] E]; rewrite E.
  - left. eauto.
  - right.
    destruct (generateRealisticMockData_valid random _ _ _ _ _ p calls Ho)
      as (t & m & calls' & _ & Eg & _); [lia|].
    rewrite Eg. exists f, m, calls'. auto.
Qed.

(** ** The batch endpoint *)

Lemma valid_target_inv s :
  valid_target s = true ->
  exists address a b c d p,
    s_ip s = Some address /\ s_port s = Some (Int p)
    /\ octets address = Some (a, b, c, d) /\ 1 <= p <= 65535.
Proof.
  unfold valid_target, valid_port.
  destruct (s_ip s) as [address|]; [|discriminate].
  destruct (s_port s) as [[|p]|]; try discriminate.
  destruct (octets address) as [[[[a b] c] d]|] eqn:Ho; [|discriminate].
  rewrite andb_true_iff, !Z.leb_le. intros H.
  exists address, a, b, c, d, p. auto.
Qed.

Lemma query_servers_valid random servers :
  Forall (fun s => valid_target s = true) servers ->
  forall nets calls,
  exists results,
    query_servers random servers nets calls = Done results
    /\ List.length results = List.length servers
    /\ forall k target,
         nth_error servers k = Some target ->
         exists r,
           nth_error results k = Some r
           /\ result_of random target (nth k nets []) r.
Proof.
  induction 1 as [|target rest Hv _ IH]; intros nets calls.
  - exists []. repeat split. intros [|k] ? [=].
  - destruct (valid_target_inv _ Hv)
      as (address & a & b & c & d & p & Hip & Hport & Ho & Hp).
    cbn [query_servers].
    assert (hd [] nets = nth 0 nets []) as Hhd by (now destruct nets).
    assert (forall k, nth (S k) nets [] = nth k (tl nets) []) as Htl
      by (intros k; destruct nets; [now destruct k | reflexivity]).
    destruct (queryRealSampServer_reports (s_ip target) (s_port target)
                (hd [] nets)) as [[info|f] E]; rewrite E.
    + destruct (IH (tl nets) calls) as (results & -> & Hlen & Hres).
      eexists. split; [reflexivity|]. split; [cbn; now rewrite Hlen|].
      intros [|k] t Hk; cbn [nth_error] in *.
      * injection Hk as <-. eexists. split; [reflexivity|].
        unfold result_of. rewrite <- Hhd, E. cbn. auto.
      * rewrite Htl. now apply Hres.
    + rewrite Hip, Hport.
      destruct (generateRealisticMockData_valid random _ _ _ _ _ _ calls Ho Hp)
        as (t & m & calls' & _ & Eg & _).
      rewrite Eg.
      destruct (IH (tl nets) calls') as (results & -> & Hlen & Hres).
      eexists. split; [reflexivity|]. split; [cbn; now rewrite Hlen|].
      intros [|k] t0 Hk; cbn [nth_error] in *.
      * injection Hk as <-. eexists. split; [reflexivity|].
        unfold result_of. rewrite <- Hhd, E. cbn.
        repeat split. rewrite Hip, Hport. eauto.
      * rewrite Htl. now apply Hres.
Qed.

(** C6: for at most 5 well-formed targets the batch endpoint answers with as
    many results, in the order of the targets; the result at each position is
    the decoded record when the exchange of that target resolved and a
    generated record for that target otherwise, whatever happened to the
    other targets. *)
Theorem post_samp_servers_isolation random servers nets calls :
  (List.length servers <= 5)%nat ->
  Forall (fun s => valid_target s = true) servers ->
  exists results,
    post_samp_servers random (Some servers) nets calls
    = BatchJson results (List.length servers)
    /\ List.length results = List.length servers
    /\ forall k target,
         nth_error servers k = Some target ->
         exists r,
           nth_error results k = Some r
           /\ result_of random target (nth k nets []) r.
Proof.
  intros Hlen Hv. unfold post_samp_servers.
  replace (5 <? List.length servers)%nat with false
    by (symmetry; apply Nat.ltb_ge; lia).
  destruct (query_servers_valid random servers Hv nets calls)
    as (results & -> & Hl & Hres).
  exists results. rewrite Hl. auto.
Qed.

Lemma post_samp_servers_isolation_witness :
  exists results,
    post_samp_servers (fun k => Z.of_nat k # 100) (Some three_targets)
      three_nets 0
    = BatchJson results (List.length three_targets)
    /\ List.length results = List.length three_targets
    /\ forall k target,
         nth_error three_targets k = Some target ->
         exists r,
           nth_error results k = Some r
           /\ result_of (fun k => Z.of_nat k # 100) target
                (nth k three_nets []) r.
Proof.
  apply post_samp_servers_isolation.
  - cbn. lia.
  - repeat constructor.
Defined.

(** The batch of [three_targets] against [three_nets]: three results in the
    order of the targets, the second one marked as mock. *)
Example three_targets_sources random calls :
  match post_samp_servers random (Some three_targets) three_nets calls with
  | BatchJson results total =>
      map i_metadata results = [None; Some mock; None]
      /\ map i_query results = three_targets /\ total = 3%nat
  | _ => False
  end.
Proof.
  unfold post_samp_servers.
  change (5 <? List.length three_targets)%nat with false. cbv iota.
  destruct (query_servers_valid random three_targets) with (nets := three_nets)
    (calls := calls) as (results & -> & Hlen & Hres); [repeat constructor|].
  destruct results as [|r1 [|r2 [|r3 [|? ?]]]]; try discriminate Hlen.
  destruct (Hres 0%nat _ eq_refl) as (? & [= <-] & _ & Q1 & M1).
  destruct (Hres 1%nat _ eq_refl) as (? & [= <-] & _ & Q2 & M2).
  destruct (Hres 2%nat _ eq_refl) as (? & [= <-] & _ & Q3 & M3).
  cbn in M1, M2, M3. destruct M1 as [_ M1], M2 as [M2 _], M3 as [_ M3].
  cbn [map]. rewrite Q1, Q2, Q3, M1, M2, M3. auto.
Qed.

(** C10 fails on the code: an element without [ip], and an element without
    [port], make the mock generator throw inside the [catch] block of the
    loop; the exception leaves the handler and no result is sent, not even
    those of the targets already queried. *)
Theorem post_samp_servers_unhandled random nets calls :
  post_samp_servers random
    (Some [{| s_ip := None; s_port := Some (Int 7777) |}]) nets calls
  = BatchUnhandled TypeError
  /\ post_samp_servers random
       (Some [{| s_ip := Some "51.79.247.157"; s_port := None |}]) nets calls
     = BatchUnhandled TypeError
  /\ post_samp_servers random
       (Some [{| s_ip := Some "51.79.247.157"; s_port := Some (Int 7777) |};
              {| s_ip := None; s_port := None |}]) [[]] calls
     = BatchUnhandled TypeError.
Proof.
  unfold post_samp_servers. cbn [List.length Nat.ltb Nat.leb query_servers s_ip s_port].
  rewrite (queryRealSampServer_thrown None (Some (Int 7777)) (hd [] nets)
             TypeError eq_refl).
  rewrite (queryRealSampServer_thrown (Some "51.79.247.157") None (hd [] nets)
             RangeError eq_refl).
  split; [reflexivity|]. split; [reflexivity|].
  change (promise (queryRealSampServer (Some "51.79.247.157")
                     (Some (Int 7777)) (hd [] [[]])))
    with (Some (Rejected QueryTimeout)).
  destruct (generateRealisticMockData_valid random "51.79.247.157"
              51 79 247 157 7777 calls eq_refl)
    as (t & m & calls' & _ & -> & _); [lia|].
  reflexivity.
Qed.

(** * Further properties *)

(** ** Packets *)

Lemma writeUInt8_fits buf n offset :
  (offset < List.length buf)%nat ->
  writeUInt8 buf n offset
  = if fits 255 n then Ok (store buf offset (byte_of (written n)))
    else Throw RangeError.
Proof.
  intros Ho. apply Nat.ltb_lt in Ho. unfold writeUInt8, fits, written.
  destruct n as [|v]; [now rewrite Ho|].
  destruct (Z.leb_spec 0 v), (Z.leb_spec v 255), (Z.ltb_spec 255 v),
    (Z.ltb_spec v 0); cbn [orb andb]; try lia; try reflexivity;
    now rewrite Ho.
Qed.

Lemma writeUInt16LE_fits buf port offset :
  (offset + 1 < List.length buf)%nat ->
  writeUInt16LE buf port offset
  = if fits 65535 (to_number port)
    then Ok (store (store buf offset (byte_of (written (to_number port))))
               (S offset) (byte_of (written (to_number port) / 256)))
    else Throw RangeError.
Proof.
  intros Ho. apply Nat.ltb_lt in Ho. unfold writeUInt16LE, fits, written.
  destruct (to_number port) as [|v]; [now rewrite Ho|].
  destruct (Z.leb_spec 0 v), (Z.leb_spec v 65535), (Z.ltb_spec 65535 v),
    (Z.ltb_spec v 0); cbn [orb andb]; try lia; try reflexivity;
    now rewrite Ho.
Qed.

(** X1: for a string address [createSampQueryPacket] returns the 11 bytes
    "SAMP", the four parts of the address, the port with its low byte first
    and 0x69, when each of the first four parts is not a number or is from 0
    to 255 and the port is not a number or is from 0 to 65535; a part that is
    missing or not a number is written as 0.  Otherwise it throws a
    [RangeError]. *)
Theorem createSampQueryPacket_closed_form address port :
  createSampQueryPacket (Some address) port
  = if fits 255 (part address 0) && fits 255 (part address 1)
       && fits 255 (part address 2) && fits 255 (part address 3)
       && fits 65535 (to_number port)
    then Ok ["S"%char; "A"%char; "M"%char; "P"%char;
             byte_of (written (part address 0));
             byte_of (written (part address 1));
             byte_of (written (part address 2));
             byte_of (written (part address 3));
             byte_of (written (to_number port));
             byte_of (written (to_number port) / 256);
             "i"%char]
    else Throw RangeError.
Proof.
  unfold createSampQueryPacket, part. cbn [bind].
  cbn [seq fold_left bind alloc repeat list_ascii_of_string write store
       Nat.add].
  rewrite writeUInt8_fits by (cbn; lia).
  destruct (fits 255 (parseInt_opt (nth_error (split "." address) 0)));
    cbn [bind andb store]; [|reflexivity].
  rewrite writeUInt8_fits by (cbn; lia).
  destruct (fits 255 (parseInt_opt (nth_error (split "." address) 1)));
    cbn [bind andb store]; [|reflexivity].
  rewrite writeUInt8_fits by (cbn; lia).
  destruct (fits 255 (parseInt_opt (nth_error (split "." address) 2)));
    cbn [bind andb store]; [|reflexivity].
  rewrite writeUInt8_fits by (cbn; lia).
  destruct (fits 255 (parseInt_opt (nth_error (split "." address) 3)));
    cbn [bind andb store]; [|reflexivity].
  rewrite writeUInt16LE_fits by (cbn; lia).
  destruct (fits 65535 (to_number port)); cbn [bind andb store];
    [|reflexivity].
  rewrite writeUInt8_fits by (cbn; lia). reflexivity.
Qed.

(** X2: for every address written in dotted notation with four octets from 0
    to 255, and every port from 1 to 65535, the packet carries the four
    octets at offsets 4 to 7 and the port at offsets 8 and 9, low byte
    first. *)
Theorem createSampQueryPacket_dotted a b c d p :
  0 <= a <= 255 -> 0 <= b <= 255 -> 0 <= c <= 255 -> 0 <= d <= 255 ->
  1 <= p <= 65535 ->
  createSampQueryPacket (Some (dotted a b c d)) (Some (Int p))
  = Ok (list_ascii_of_string "SAMP"
        ++ [byte_of a; byte_of b; byte_of c; byte_of d;
            byte_of (p mod 256); byte_of (p / 256); "i"%char]).
Proof.
  intros Ha Hb Hc Hd Hp.
  rewrite (createSampQueryPacket_valid _ a b c d p
             (octets_dotted a b c d Ha Hb Hc Hd) Hp).
  replace (byte_of (p mod 256)) with (byte_of p)
    by (unfold byte_of; now rewrite Z.mod_mod by lia).
  reflexivity.
Qed.

Lemma createSampQueryPacket_dotted_witness :
  createSampQueryPacket (Some (dotted 51 79 247 157)) (Some (Int 7777))
  = Ok (list_ascii_of_string "SAMP"
        ++ [byte_of 51; byte_of 79; byte_of 247; byte_of 157;
            byte_of (7777 mod 256); byte_of (7777 / 256); "i"%char]).
Proof.
  apply createSampQueryPacket_dotted; lia.
Defined.

(** ** Responses *)

Lemma readUInt8_throws buf offset e :
  readUInt8 buf offset = Throw e -> e = RangeError.
Proof.
  unfold readUInt8. destruct (at_ buf offset); [discriminate|]. now intros [=].
Qed.

Lemma readUInt16LE_throws buf offset e :
  readUInt16LE buf offset = Throw e -> e = RangeError.
Proof.
  unfold readUInt16LE.
  destruct (at_ buf offset), (at_ buf (offset + 1)); try discriminate;
    now intros [=].
Qed.

Lemma readUInt32LE_throws buf offset e :
  readUInt32LE buf offset = Throw e -> e = RangeError.
Proof.
  unfold readUInt32LE.
  destruct (at_ buf offset), (at_ buf (offset + 1)), (at_ buf (offset + 2)),
    (at_ buf (offset + 3)); try discriminate; now intros [=].
Qed.

Lemma readUInt16LE_Ok_range buf offset v :
  readUInt16LE buf offset = Ok v -> 0 <= v <= 65535.
Proof.
  unfold readUInt16LE.
  destruct (at_ buf offset) as [b0|]; [|discriminate].
  destruct (at_ buf (offset + 1)) as [b1|]; [|discriminate].
  intros [= <-].
  pose proof (byte_val_range b0). pose proof (byte_val_range b1). lia.
Qed.

(** What a decoded response went through. *)
Lemma parseSampResponse_Ok_inv buffer ip port info :
  parseSampResponse buffer ip port = Ok info ->
  exists hl gl ll,
    readUInt16LE buffer 5 = Ok (players info)
    /\ readUInt16LE buffer 7 = Ok (maxPlayers info)
    /\ readUInt32LE buffer 9 = Ok hl
    /\ readUInt32LE buffer (13 + hl) = Ok gl
    /\ readUInt32LE buffer (13 + hl + 4 + gl) = Ok ll
    /\ hostname info = trim (toString buffer 13 (13 + hl))
    /\ gamemode info = trim (toString buffer (13 + hl + 4) (13 + hl + 4 + gl))
    /\ language info
       = trim (toString buffer (13 + hl + 4 + gl + 4)
                 (13 + hl + 4 + gl + 4 + ll)).
Proof.
  rewrite parseSampResponse_offsets.
  destruct (_ <? 11); [discriminate|].
  destruct (readUInt8 buffer 4) as [flag|]; [|discriminate].
  destruct (readUInt16LE buffer 5) as [pl|] eqn:E1; [|discriminate].
  destruct (readUInt16LE buffer 7) as [mp|] eqn:E2; [|discriminate].
  destruct (readUInt32LE buffer 9) as [hl|] eqn:E3; [|discriminate].
  cbn [bind].
  destruct (readUInt32LE buffer (13 + hl)) as [gl|] eqn:E4; [|discriminate].
  cbn [bind].
  destruct (readUInt32LE buffer (13 + hl + 4 + gl)) as [ll|] eqn:E5;
    [|discriminate].
  cbn [bind]. intros H.
  apply (f_equal (fun r => match r with Ok i => i | Throw _ => info end)) in H.
  cbv beta iota in H. subst info. exists hl, gl, ll.
  repeat (split; [first [reflexivity | assumption]|]). reflexivity.
Qed.

Lemma parseSampResponse_throws buffer ip port e :
  parseSampResponse buffer ip port = Throw e ->
  (e = TooShort /\ (List.length buffer < 11)%nat)
  \/ (e = RangeError /\ (11 <= List.length buffer)%nat).
Proof.
  rewrite parseSampResponse_offsets.
  destruct (Z.ltb_spec (Z.of_nat (List.length buffer)) 11) as [L|L].
  - intros [= <-]. left. split; [reflexivity | lia].
  - intros H. right. split; [|lia]. revert H.
    destruct (readUInt8 buffer 4) eqn:E1; cbn [bind];
      [|intros [= <-]; eapply readUInt8_throws; eauto].
    destruct (readUInt16LE buffer 5) eqn:E2; cbn [bind];
      [|intros [= <-]; eapply readUInt16LE_throws; eauto].
    destruct (readUInt16LE buffer 7) eqn:E3; cbn [bind];
      [|intros [= <-]; eapply readUInt16LE_throws; eauto].
    destruct (readUInt32LE buffer 9) as [hl|] eqn:E4; cbn [bind];
      [|intros [= <-]; eapply readUInt32LE_throws; eauto].
    destruct (readUInt32LE buffer (13 + hl)) as [gl|] eqn:E5; cbn [bind];
      [|intros [= <-]; eapply readUInt32LE_throws; eauto].
    destruct (readUInt32LE buffer (13 + hl + 4 + gl)) as [ll|] eqn:E6;
      cbn [bind]; [discriminate|].
    intros [= <-]; eapply readUInt32LE_throws; eauto.
Qed.

(** X4: a response decodes only if it has at least 21 bytes, and then the two
    counts are from 0 to 65535; a response of 11 to 20 bytes passes the length
    test and makes a read throw a [RangeError]. *)
Theorem parseSampResponse_needs_21_bytes buffer ip port :
  (forall info,
     parseSampResponse buffer ip port = Ok info ->
     (21 <= List.length buffer)%nat
     /\ 0 <= players info <= 65535 /\ 0 <= maxPlayers info <= 65535)
  /\ ((11 <= List.length buffer < 21)%nat ->
      parseSampResponse buffer ip port = Throw RangeError).
Proof.
  assert (forall info,
            parseSampResponse buffer ip port = Ok info ->
            (21 <= List.length buffer)%nat
            /\ 0 <= players info <= 65535 /\ 0 <= maxPlayers info <= 65535)
    as A.
  { intros info H.
    destruct (parseSampResponse_Ok_inv _ _ _ _ H)
      as (hl & gl & ll & Hp & Hm & Hh & Hg & Hl & _).
    apply readUInt16LE_Ok_range in Hp, Hm.
    apply readUInt32LE_Ok_range in Hh, Hg, Hl. lia. }
  split; [exact A|]. intros L.
  destruct (parseSampResponse buffer ip port) as [info|e] eqn:E.
  - destruct (A info eq_refl). lia.
  - destruct (parseSampResponse_throws _ _ _ _ E) as [[-> ?] | [-> ?]];
      [lia | reflexivity].
Qed.

Lemma parseSampResponse_needs_21_bytes_witness :
  parseSampResponse (list_ascii_of_string "SAMP0ppmm000011112") None None
  = Throw RangeError.
Proof.
  apply parseSampResponse_needs_21_bytes. cbn. lia.
Defined.

Lemma parseSampResponse_serverSideEncode_witness :
  parseSampResponse
    (serverSideEncode "SAMP" true 700 650 "  Los Santos  " "" "Russian "
     ++ list_ascii_of_string "rules follow") (Some "10.0.0.2") None
  = Ok {| online := true;
          password := true;
          players := 700;
          maxPlayers := 650;
          hostname := trim (utf8Slice (list_ascii_of_string "  Los Santos  "));
          gamemode := trim (utf8Slice (list_ascii_of_string ""));
          language := trim (utf8Slice (list_ascii_of_string "Russian "));
          ip := Some "10.0.0.2";
          port := None;
          version := "SA-MP 0.3.7" |}.
Proof.
  apply parseSampResponse_serverSideEncode; cbn; lia.
Defined.

(** ** Generated records *)

Section MockMore.

Variable random : nat -> Q.

Lemma push_players_calls hash todo i calls :
  snd (push_players random hash todo i calls) = (calls + 2 * todo)%nat.
Proof.
  revert i calls. induction todo as [|todo IH]; intros i calls;
    cbn [push_players]; [cbn; lia|].
  unfold floor_random. specialize (IH (i + 1) (S (S calls))).
  destruct (push_players random hash todo (i + 1) (S (S calls))).
  cbn [snd] in *. lia.
Qed.

(** What a generated record is made of. *)
Lemma generateRealisticMockData_Ok_inv ip port calls m calls' :
  generateRealisticMockData random ip port calls = Ok (m, calls') ->
  exists address h t,
    ip = Some address /\ hash_of address port = Int h
    /\ index serverTemplates (Int (Z.rem h 5)) = Some t
    /\ m_hostname m = name t /\ m_gamemode m = t_gamemode t
    /\ m_language m = t_language t /\ m_description m = t_description t
    /\ m_tags m = t_tags t
    /\ m_players m
       = Z.max 10 (Z.min 1000
           (averagePlayers t + Qfloor (random calls * inject_Z 100) - 50))
    /\ m_maxPlayers m = 1000
    /\ m_ping m = Qfloor (random (S calls) * inject_Z 150) + 30
    /\ m_playersList m
       = fst (push_players random (Int h)
                (Z.to_nat (Z.min (m_players m) 25)) 0 (S (S calls)))
    /\ m_lastRestartHours m
       = Qfloor (random (S (S (S calls))
                         + 2 * Z.to_nat (Z.min (m_players m) 25))%nat
                 * inject_Z 72)
    /\ calls' = (calls + 4 + 2 * Z.to_nat (Z.min (m_players m) 25))%nat.
Proof.
  unfold generateRealisticMockData.
  destruct ip as [address|]; [|discriminate]. cbn [bind].
  fold (hash_of address port).
  destruct (hash_of address port) as [|h] eqn:Eh; [discriminate|].
  cbn [rem List.length serverTemplates Z.of_nat].
  change (Z.pos (Pos.of_succ_nat 4)) with 5.
  destruct (index serverTemplates (Int (Z.rem h 5))) as [t|] eqn:Et;
    [|discriminate].
  cbn [bind]. unfold floor_random.
  pose proof (push_players_calls (Int h)
                (Z.to_nat (Z.min (Z.max 10 (Z.min 1000
                   (averagePlayers t + Qfloor (random calls * inject_Z 100)
                    - 50))) 25)) 0 (S (S calls))) as Hc.
  destruct (push_players random (Int h) _ 0 (S (S calls)))
    as [playersList calls1] eqn:E.
  cbn [snd] in Hc. intros H.
  apply (f_equal (fun r => match r with Ok i => i | Throw _ => (m, calls') end))
    in H.
  cbv beta iota in H.
  pose proof (f_equal fst H) as H1. pose proof (f_equal snd H) as H2.
  cbn [fst snd] in H1, H2. clear H. subst m calls'.
  exists address, h, t.
  cbn [m_hostname m_gamemode m_language m_description m_tags m_players
       m_maxPlayers m_playersList m_ping m_lastRestartHours].
  rewrite E, Hc. cbn [fst].
  repeat (split; [first [reflexivity | assumption]|]).
  lia.
Qed.

Lemma generateRealisticMockData_throws ip port calls e :
  generateRealisticMockData random ip port calls = Throw e -> e = TypeError.
Proof.
  unfold generateRealisticMockData.
  destruct ip as [address|]; [|now intros [=]]. cbn [bind].
  destruct (index serverTemplates _); [|now intros [=]]. cbn [bind].
  unfold floor_random.
  destruct (push_players _ _ _ _ _). discriminate.
Qed.

Lemma Qfloor_unit r n :
  (0 <= r)%Q -> (r < 1)%Q -> 0 < n -> 0 <= Qfloor (r * inject_Z n) <= n - 1.
Proof.
  intros H0 H1 Hn.
  assert (0 <= r * inject_Z n)%Q as L.
  { apply Qmult_le_0_compat; [exact H0|].
    change 0%Q with (inject_Z 0). rewrite <- Zle_Qle. lia. }
  assert (r * inject_Z n < inject_Z n)%Q as U.
  { setoid_replace (inject_Z n) with (1 * inject_Z n)%Q at 2 by ring.
    apply Qmult_lt_compat_r; [|exact H1].
    change 0%Q with (inject_Z 0). rewrite <- Zlt_Qlt. lia. }
  split.
  - change 0 with (Qfloor (inject_Z 0)). now apply Qfloor_resp_le.
  - pose proof (Qfloor_le (r * inject_Z n)) as F.
    assert (inject_Z (Qfloor (r * inject_Z n)) < inject_Z n)%Q as F'
      by (eapply Qle_lt_trans; eauto).
    rewrite <- Zlt_Qlt in F'. lia.
Qed.

Lemma push_players_jitter hash todo i calls :
  in_unit random ->
  Forall (fun pl => 0 <= score pl <= 49999 /\ 20 <= p_ping pl <= 219)
    (fst (push_players random hash todo i calls)).
Proof.
  intros U. revert i calls.
  induction todo as [|todo IH]; intros i calls; cbn [push_players];
    [constructor|].
  unfold floor_random. specialize (IH (i + 1) (S (S calls))).
  destruct (push_players random hash todo (i + 1) (S (S calls))).
  cbn [fst] in *. constructor; [|exact IH]. cbn [score p_ping].
  pose proof (Qfloor_unit _ 50000 (proj1 (U calls)) (proj2 (U calls))).
  pose proof (Qfloor_unit _ 200 (proj1 (U (S calls))) (proj2 (U (S calls)))).
  lia.
Qed.


End MockMore.


(** X6: a call that returns has drawn exactly 4 + 2 * (number of players
    listed) samples of [Math.random]. *)
Theorem generateRealisticMockData_draws random ip port calls m calls' :
  generateRealisticMockData random ip port calls = Ok (m, calls') ->
  calls' = (calls + 4 + 2 * List.length (m_playersList m))%nat.
Proof.
  intros H.
  destruct (generateRealisticMockData_Ok_inv random _ _ _ _ _ H)
    as (address & h & t & _ & _ & _ & _ & _ & _ & _ & _ & _ & _ & _ & Hl & _
        & ->).
  now rewrite Hl, push_players_length.
Qed.

Lemma generateRealisticMockData_draws_witness :
  exists m calls',
    generateRealisticMockData (fun _ => 1 # 2) (Some "51.79.247.157")
      (Some (Int 7777)) 3 = Ok (m, calls')
    /\ calls' = (3 + 4 + 2 * List.length (m_playersList m))%nat.
Proof.
  eexists. eexists. split; [vm_compute; reflexivity|].
  apply (generateRealisticMockData_draws (fun _ => 1 # 2)
           (Some "51.79.247.157") (Some (Int 7777))).
  vm_compute. reflexivity.
Defined.

Lemma serverTemplates_average t :
  In t serverTemplates -> 120 <= averagePlayers t <= 450.
Proof.
  intros H. cbn in H.
  repeat (destruct H as [<- | H]; [cbn; lia|]). destruct H.
Qed.

Lemma index_In {A} (arr : list A) i x : index arr i = Some x -> In x arr.
Proof.
  unfold index. destruct i as [|z]; [discriminate|].
  destruct (z <? 0); [discriminate|]. apply nth_error_In.
Qed.

(** X7: with samples of [Math.random] in [0, 1), a generated record has
    between 50 below and 49 above its template's average players, which is
    always from 70 to 499: the clamp to 10..1000 never applies and exactly 25
    players are listed.  The ping is from 30 to 179, every player's score
    from 0 to 49999 and ping from 20 to 219, and the restart is at most 71
    hours back. *)
Theorem generateRealisticMockData_jitter random ip port calls m calls' :
  in_unit random ->
  generateRealisticMockData random ip port calls = Ok (m, calls') ->
  plausible m.
Proof.
  intros U H. unfold plausible.
  destruct (generateRealisticMockData_Ok_inv random _ _ _ _ _ H)
    as (address & h & t & _ & _ & Ht & Hn & _ & _ & _ & _ & Hp & _ & Hping & Hl
        & Hh & _).
  apply index_In in Ht. pose proof (serverTemplates_average t Ht) as A.
  pose proof (Qfloor_unit _ 100 (proj1 (U calls)) (proj2 (U calls))
                ltac:(lia)) as R.
  assert (averagePlayers t - 50 <= m_players m <= averagePlayers t + 49) as B
    by (rewrite Hp; lia).
  split; [exists t; auto|]. split; [lia|].
  split; [rewrite Hl, push_players_length; lia|].
  split.
  { rewrite Hping.
    pose proof (Qfloor_unit _ 150 (proj1 (U (S calls))) (proj2 (U (S calls)))
                  ltac:(lia)). lia. }
  split; [rewrite Hl; now apply push_players_jitter|].
  rewrite Hh.
  match goal with |- context [random ?k] =>
    pose proof (Qfloor_unit _ 72 (proj1 (U k)) (proj2 (U k)) ltac:(lia))
  end. lia.
Qed.

Lemma generateRealisticMockData_jitter_witness :
  exists m calls',
    generateRealisticMockData (fun _ => 1 # 2) (Some "51.79.247.157")
      (Some (Int 7777)) 0 = Ok (m, calls')
    /\ plausible m.
Proof.
  eexists. eexists. split; [vm_compute; reflexivity|].
  eapply (generateRealisticMockData_jitter (fun _ => 1 # 2)
            (Some "51.79.247.157") (Some (Int 7777)) 0%nat).
  - intros k. split; [discriminate | reflexivity].
  - vm_compute. reflexivity.
Defined.




(** ** Exchanges *)

Lemma close_then_settle_tidy o st : tidy st -> tidy (close_then_settle o st).
Proof.
  unfold tidy, close_then_settle, close, settle. intros [C S].
  destruct (socket_open st) eqn:Eo; cbn [bind callback].
  - destruct (promise st) eqn:Ep; cbn; rewrite ?Ep; cbn; lia.
  - cbn. rewrite Eo. lia.
Qed.

Lemma clearTimeout_tidy st : tidy st -> tidy (clearTimeout st).
Proof. unfold tidy. cbn. auto. Qed.

Lemma set_timer_tidy b st : tidy st -> tidy (set_timer b st).
Proof. unfold tidy. cbn. auto. Qed.

Lemma dispatch_tidy ip port ev st : tidy st -> tidy (dispatch ip port ev st).
Proof.
  intros T. destruct (dispatch_cases ip port ev st) as [-> | [o ->]]; [exact T|].
  now apply close_then_settle_tidy, clearTimeout_tidy.
Qed.

Lemma fire_timer_tidy st : tidy st -> tidy (fire_timer st).
Proof.
  intros T. destruct (fire_timer_cases st) as [-> | ->]; [exact T|].
  now apply close_then_settle_tidy, set_timer_tidy.
Qed.

Lemma deliver_tidy ip port net st : tidy st -> tidy (deliver ip port net st).
Proof.
  revert st. induction net as [|[t ev] rest IH]; intros st T; cbn [deliver].
  - now apply fire_timer_tidy.
  - apply IH, dispatch_tidy.
    destruct (timeout <=? t); [now apply fire_timer_tidy | exact T].
Qed.

Lemma start_tidy ip port : tidy (start ip port).
Proof.
  unfold start, tidy.
  destruct (createSampQueryPacket ip port); [|cbn; auto].
  destruct (send_check port); cbn; auto.
Qed.

Lemma filter_rev_length {A} (f : A -> bool) (l : list A) :
  List.length (filter f (rev l)) = List.length (filter f l).
Proof.
  induction l as [|a l IH]; [reflexivity|].
  cbn [rev filter]. rewrite filter_app, length_app, IH. cbn [filter].
  destruct (f a); cbn; lia.
Qed.

(** X9: in every exchange the promise is settled exactly once, and the socket
    is closed at most once: exactly once when it ends closed. *)
Theorem queryRealSampServer_settles_once ip port net :
  let st := queryRealSampServer ip port net in
  List.length (filter is_settle (history st)) = 1%nat
  /\ List.length (filter is_close (history st))
     = (if socket_open st then 0 else 1)%nat.
Proof.
  cbn zeta. unfold history. rewrite !filter_rev_length.
  destruct (deliver_tidy ip port net (start ip port) (start_tidy ip port))
    as [C S].
  fold (queryRealSampServer ip port net) in C, S.
  destruct (queryRealSampServer_reports ip port net) as [o E].
  rewrite E in S. auto.
Qed.

Lemma deliver_idle ip port net st :
  listening st = false -> timer st = false -> deliver ip port net st = st.
Proof.
  intros L T. induction net as [|[t ev] rest IH]; cbn [deliver].
  - unfold fire_timer. now rewrite T.
  - unfold fire_timer, dispatch. rewrite T.
    destruct (timeout <=? t); rewrite L; exact IH.
Qed.

(** X10: when the packet cannot be built the promise is rejected with the
    exception and nothing else ever happens: no timer, no send, and the socket
    that was created is never closed, whatever the network does. *)
Theorem queryRealSampServer_leaks_socket ip port net e :
  createSampQueryPacket ip port = Throw e ->
  let st := queryRealSampServer ip port net in
  history st = [CreateSocket; Settle (Rejected (Thrown e))]
  /\ promise st = Some (Rejected (Thrown e))
  /\ socket_open st = true.
Proof.
  intros H. cbn zeta. unfold queryRealSampServer.
  assert (start ip port
          = {| socket_open := true; timer := false; listening := false;
               promise := Some (Rejected (Thrown e));
               trace := [Settle (Rejected (Thrown e)); CreateSocket] |}) as ->
    by (unfold start; rewrite H; reflexivity).
  rewrite deliver_idle by reflexivity. repeat split.
Qed.

Lemma queryRealSampServer_leaks_socket_witness :
  history (queryRealSampServer (Some "300.1.1.1") (Some (Int 7777))
             [(10, SendDone None); (5000, Message [])])
  = [CreateSocket; Settle (Rejected (Thrown RangeError))].
Proof.
  apply (queryRealSampServer_leaks_socket (Some "300.1.1.1") (Some (Int 7777))
           [(10, SendDone None); (5000, Message [])] RangeError).
  reflexivity.
Defined.

Lemma start_pending ip port :
  promise (start ip port) = None ->
  exists packet,
    createSampQueryPacket ip port = Ok packet
    /\ start ip port
       = {| socket_open := true; timer := true; listening := true;
            promise := None;
            trace := [Send packet port ip; SetTimeout timeout; CreateSocket] |}.
Proof.
  unfold start.
  destruct (createSampQueryPacket ip port) as [packet|]; [|discriminate].
  destruct (send_check port); [|discriminate].
  intros _. now exists packet.
Qed.

Lemma dispatch_reported ip port ev st o :
  listening st = true -> reported ip port ev = Some o ->
  dispatch ip port ev st = close_then_settle o (clearTimeout st).
Proof.
  intros L R. unfold dispatch. rewrite L.
  destruct ev as [message|error|[error|]]; cbn in R; try discriminate;
    injection R as <-.
  - apply on_message_pattern.
  - reflexivity.
  - reflexivity.
Qed.

(** X11: the first event that is not a successful completion of the send, if it
    comes before the timer's delay, decides the outcome; whatever follows is
    ignored. *)
Theorem queryRealSampServer_first_event ip port before t ev after o :
  promise (start ip port) = None ->
  Forall (fun te => snd te = SendDone None /\ fst te < 5000) before ->
  t < 5000 ->
  reported ip port ev = Some o ->
  promise (queryRealSampServer ip port (before ++ (t, ev) :: after)) = Some o.
Proof.
  intros Hs Hb Ht Hr. unfold queryRealSampServer.
  destruct (start_pending ip port Hs) as (packet & _ & ->).
  set (st := {| socket_open := true; timer := true; listening := true;
                promise := None;
                trace := [Send packet port ip; SetTimeout timeout;
                          CreateSocket] |}).
  induction Hb as [|[t' ev'] before [Hev Hlt] _ IH]; cbn [app deliver].
  - replace (timeout <=? t) with false
      by (symmetry; apply Z.leb_gt; exact Ht).
    apply deliver_settled.
    rewrite (dispatch_reported ip port ev st o eq_refl Hr).
    now apply close_then_settle_reports.
  - cbn [fst snd] in Hev, Hlt. subst ev'.
    replace (timeout <=? t') with false
      by (symmetry; apply Z.leb_gt; exact Hlt).
    exact IH.
Qed.

Lemma queryRealSampServer_first_event_witness :
  promise (queryRealSampServer (Some "51.79.247.157") (Some (Int 7777))
             ([(2, SendDone None)]
              ++ (30, SocketError "ECONNREFUSED")
              :: [(40, Message (serverSideEncode "SAMP" false 42 100
                                  " MyServer " "DM" "EN"))]))
  = Some (Rejected (NetworkError "ECONNREFUSED")).
Proof.
  apply queryRealSampServer_first_event with (t := 30)
    (ev := SocketError "ECONNREFUSED").
  - reflexivity.
  - repeat constructor.
  - lia.
  - reflexivity.
Defined.

Lemma close_then_settle_adds o st :
  exists newer,
    trace (close_then_settle o st) = newer ++ trace st
    /\ filter is_setup newer = [].
Proof.
  unfold close_then_settle, close, settle.
  destruct (socket_open st); cbn.
  - destruct (promise st); cbn.
    + now exists [Close].
    + now exists [Settle o; Close].
  - now exists [Uncaught NotRunning].
Qed.

Lemma dispatch_adds ip port ev st :
  exists newer,
    trace (dispatch ip port ev st) = newer ++ trace st
    /\ filter is_setup newer = [].
Proof.
  destruct (dispatch_cases ip port ev st) as [-> | [o ->]]; [now exists []|].
  destruct (close_then_settle_adds o (clearTimeout st)) as (newer & -> & F).
  exists (newer ++ [ClearTimeout]). rewrite <- app_assoc. split; [reflexivity|].
  rewrite filter_app, F. reflexivity.
Qed.

Lemma fire_timer_adds st :
  exists newer,
    trace (fire_timer st) = newer ++ trace st /\ filter is_setup newer = [].
Proof.
  destruct (fire_timer_cases st) as [-> | ->]; [now exists []|].
  apply (close_then_settle_adds _ (set_timer false st)).
Qed.

Lemma deliver_adds ip port net st :
  exists newer,
    trace (deliver ip port net st) = newer ++ trace st
    /\ filter is_setup newer = [].
Proof.
  revert st. induction net as [|[t ev] rest IH]; intros st; cbn [deliver].
  - apply fire_timer_adds.
  - destruct (IH (dispatch ip port ev
                    (if timeout <=? t then fire_timer st else st)))
      as (n1 & -> & F1).
    destruct (dispatch_adds ip port ev
                (if timeout <=? t then fire_timer st else st))
      as (n2 & -> & F2).
    destruct (timeout <=? t).
    + destruct (fire_timer_adds st) as (n3 & -> & F3).
      exists (n1 ++ n2 ++ n3). rewrite !app_assoc. split; [reflexivity|].
      now rewrite !filter_app, F1, F2, F3.
    + exists (n1 ++ n2). rewrite app_assoc. split; [reflexivity|].
      now rewrite filter_app, F1, F2.
Qed.

(** X12: an exchange whose request goes out sets the timer to 5000 ms and sends
    the packet once, to the port and address it was given; nothing is ever
    sent again and no other timer is set. *)
Theorem queryRealSampServer_sends_once ip port net :
  promise (start ip port) = None ->
  exists packet later,
    createSampQueryPacket ip port = Ok packet
    /\ history (queryRealSampServer ip port net)
       = CreateSocket :: SetTimeout 5000 :: Send packet port ip :: later
    /\ filter is_setup later = [].
Proof.
  intros Hs. destruct (start_pending ip port Hs) as (packet & Hp & E).
  destruct (deliver_adds ip port net (start ip port)) as (newer & T & F).
  exists packet, (rev newer). split; [exact Hp|].
  unfold history, queryRealSampServer. rewrite T, E. cbn [trace].
  rewrite rev_app_distr. cbn [rev app]. split; [reflexivity|].
  assert (List.length (filter is_setup (rev newer)) = 0%nat) as L
    by (rewrite filter_rev_length, F; reflexivity).
  now destruct (filter is_setup (rev newer)).
Qed.

Lemma queryRealSampServer_sends_once_witness :
  exists packet later,
    createSampQueryPacket (Some "51.79.247.157") (Some (Int 7777)) = Ok packet
    /\ history (queryRealSampServer (Some "51.79.247.157") (Some (Int 7777))
                  [(2, SendDone None); (30, SocketError "ECONNREFUSED")])
       = CreateSocket :: SetTimeout 5000
         :: Send packet (Some (Int 7777)) (Some "51.79.247.157") :: later
    /\ filter is_setup later = [].
Proof.
  apply queryRealSampServer_sends_once. reflexivity.
Defined.

(** ** The endpoints *)

(** X13: whatever the request and the network, the single-target endpoint ends
    in one of five ways: status 400 for a missing parameter, status 400 for a
    port that does not read as 1 to 65535, the decoded record marked real when
    the exchange resolved, a generated record marked mock with the failure
    when it was rejected, or, when it was rejected and the generator throws, a
    [TypeError] that leaves the handler.  It never waits forever. *)
Theorem get_samp_server_outcomes random ip port net calls :
  let r := get_samp_server random ip port net calls in
  r = BadRequest "MISSING_PARAMS"
  \/ r = BadRequest "INVALID_PORT"
  \/ exists p,
       parseInt_opt port = Int p /\ 1 <= p <= 65535
       /\ ((exists info,
              promise (queryRealSampServer ip (Some (Int p)) net)
              = Some (Resolved info)
              /\ r = Json (ServerInfo info) (Int p) real None)
           \/ (exists f,
                 promise (queryRealSampServer ip (Some (Int p)) net)
                 = Some (Rejected f)
                 /\ ((exists m calls',
                        generateRealisticMockData random ip (Some (Int p)) calls
                        = Ok (m, calls')
                        /\ r = Json (MockData m) (Int p) mock (Some f))
                     \/ (generateRealisticMockData random ip (Some (Int p))
                           calls = Throw TypeError
                         /\ r = Unhandled TypeError)))).
Proof.
  cbn zeta. unfold get_samp_server.
  destruct (negb (truthy ip) || negb (truthy port)); [now left|].
  destruct (parseInt_opt port) as [|p] eqn:Ep; [right; now left|].
  destruct ((p <? 1) || (65535 <? p)) eqn:Er; [right; now left|].
  apply orb_false_elim in Er as [E1 E2]. apply Z.ltb_ge in E1, E2.
  right. right. exists p. split; [reflexivity|]. split; [lia|].
  destruct (queryRealSampServer_reports ip (Some (Int p)) net)
    as [[info|f] E]; rewrite E.
  - left. eauto.
  - right. exists f. split; [reflexivity|].
    destruct (generateRealisticMockData random ip (Some (Int p)) calls)
      as [[m calls']|e] eqn:Eg.
    + left. eauto.
    + right. apply generateRealisticMockData_throws in Eg as ->. auto.
Qed.

Lemma get_samp_server_answers_witness :
  exists p,
    parseInt_opt (Some "7777") = Int p /\ 1 <= p <= 65535
    /\ exists m calls',
         generateRealisticMockData (fun _ => 1 # 2) (Some "51.79.247.157")
           (Some (Int p)) 0 = Ok (m, calls')
         /\ get_samp_server (fun _ => 1 # 2) (Some "51.79.247.157")
              (Some "7777") [] 0
            = Json (MockData m) (Int p) mock (Some QueryTimeout).
Proof.
  destruct (get_samp_server_answers (fun _ => 1 # 2) "51.79.247.157"
              51 79 247 157 (Some "7777") [] 0%nat eq_refl)
    as [[code H] | (p & Hp & Hr & Hcases)].
  - vm_compute in H. discriminate H.
  - exists p. split; [exact Hp|]. split; [exact Hr|].
    assert (p = 7777) as -> by (vm_compute in Hp; congruence).
    destruct Hcases as [(info & H & _) | (f & m & c & Hf & Hm & H)].
    + exfalso. vm_compute in H. congruence.
    + assert (f = QueryTimeout) as -> by (vm_compute in Hf; congruence).
      exists m, c. split; [exact Hm | exact H].
Defined.

(** What the loop of the batch endpoint returns when it completes. *)
Lemma query_servers_Done random servers :
  forall nets calls results,
  query_servers random servers nets calls = Done results ->
  map i_query results = servers
  /\ forall k target,
       nth_error servers k = Some target ->
       exists r,
         nth_error results k = Some r
         /\ result_of random target (nth k nets []) r.
Proof.
  induction servers as [|target rest IH]; intros nets calls results;
    cbn [query_servers].
  - intros [= <-]. split; [reflexivity|]. intros [|k] ? [=].
  - assert (hd [] nets = nth 0 nets []) as Hhd by (now destruct nets).
    assert (forall k, nth (S k) nets [] = nth k (tl nets) []) as Htl
      by (intros k; destruct nets; [now destruct k | reflexivity]).
    destruct (promise (queryRealSampServer (s_ip target) (s_port target)
                         (hd [] nets))) as [[info|f]|] eqn:E;
      [| |discriminate].
    + destruct (query_servers random rest (tl nets) calls) as [rs| |] eqn:Er;
        cbn [push]; try discriminate.
      intros [= <-]. destruct (IH _ _ _ Er) as [Hq Hres].
      split; [cbn; now rewrite Hq|].
      intros [|k] t Hk; cbn [nth_error] in *.
      * injection Hk as <-. eexists. split; [reflexivity|].
        unfold result_of. rewrite <- Hhd, E. cbn. auto.
      * rewrite Htl. now apply Hres.
    + destruct (generateRealisticMockData random (s_ip target) (s_port target)
                  calls) as [[m calls']|] eqn:Eg; [|discriminate].
      destruct (query_servers random rest (tl nets) calls') as [rs| |] eqn:Er;
        cbn [push]; try discriminate.
      intros [= <-]. destruct (IH _ _ _ Er) as [Hq Hres].
      split; [cbn; now rewrite Hq|].
      intros [|k] t Hk; cbn [nth_error] in *.
      * injection Hk as <-. eexists. split; [reflexivity|].
        unfold result_of. rewrite <- Hhd, E. cbn. repeat split. eauto.
      * rewrite Htl. now apply Hres.
Qed.

Lemma query_servers_Raised random servers :
  forall nets calls e,
  query_servers random servers nets calls = Raised e ->
  e = TypeError /\ Exists (fun s => valid_target s = false) servers.
Proof.
  induction servers as [|target rest IH]; intros nets calls e;
    cbn [query_servers]; [discriminate|].
  destruct (promise (queryRealSampServer (s_ip target) (s_port target)
                       (hd [] nets))) as [[info|f]|] eqn:E; [| |discriminate].
  - destruct (query_servers random rest (tl nets) calls) eqn:Er; cbn [push];
      try discriminate.
    intros [= <-]. destruct (IH _ _ _ Er) as [-> Hx].
    split; [reflexivity | now apply Exists_cons_tl].
  - destruct (generateRealisticMockData random (s_ip target) (s_port target)
                calls) as [[m calls']|e'] eqn:Eg.
    + destruct (query_servers random rest (tl nets) calls') eqn:Er; cbn [push];
        try discriminate.
      intros [= <-]. destruct (IH _ _ _ Er) as [-> Hx].
      split; [reflexivity | now apply Exists_cons_tl].
    + intros [= <-]. split; [eapply generateRealisticMockData_throws; eauto|].
      apply Exists_cons_hd.
      destruct (valid_target target) eqn:V; [|reflexivity]. exfalso.
      destruct (valid_target_inv _ V)
        as (address & a & b & c & d & p & Hip & Hport & Ho & Hp).
      rewrite Hip, Hport in Eg.
      destruct (generateRealisticMockData_valid random _ _ _ _ _ _ calls Ho Hp)
        as (t & m & c' & _ & Eg' & _).
      congruence.
Qed.

Lemma query_servers_not_Stuck random servers :
  forall nets calls, query_servers random servers nets calls <> Stuck.
Proof.
  induction servers as [|target rest IH]; intros nets calls;
    cbn [query_servers]; [discriminate|].
  destruct (queryRealSampServer_reports (s_ip target) (s_port target)
              (hd [] nets)) as [[info|f] ->].
  - specialize (IH (tl nets) calls).
    destruct (query_servers random rest (tl nets) calls); cbn [push];
      congruence.
  - destruct (generateRealisticMockData random (s_ip target) (s_port target)
                calls) as [[m calls']|]; [|discriminate].
    specialize (IH (tl nets) calls').
    destruct (query_servers random rest (tl nets) calls'); cbn [push];
      congruence.
Qed.

(** X15: whatever the elements and the network, the batch endpoint ends in one
    of three ways: status 400 with the count received, for more than 5
    elements; the results, as many as the elements and each carrying its
    element as [query], in order; or a [TypeError] that leaves the handler,
    which needs an element that is not a well-formed target.  It never waits
    forever. *)
Theorem post_samp_servers_outcomes random servers nets calls :
  match post_samp_servers random (Some servers) nets calls with
  | BatchBadRequest received =>
      received = Some (List.length servers) /\ (5 < List.length servers)%nat
  | BatchJson results total =>
      (List.length servers <= 5)%nat /\ total = List.length servers
      /\ map i_query results = servers
  | BatchUnhandled e =>
      (List.length servers <= 5)%nat /\ e = TypeError
      /\ Exists (fun s => valid_target s = false) servers
  | BatchPending => False
  end.
Proof.
  unfold post_samp_servers.
  destruct (Nat.ltb_spec 5 (List.length servers)) as [L|L]; [auto|].
  destruct (query_servers random servers nets calls) as [results|e|] eqn:E.
  - destruct (query_servers_Done _ _ _ _ _ E) as [Hq _].
    split; [exact L|]. split; [|exact Hq].
    rewrite <- Hq. now rewrite length_map.
  - destruct (query_servers_Raised _ _ _ _ _ E). auto.
  - now apply query_servers_not_Stuck in E.
Qed.

(** X16: when the batch endpoint answers with results, for any elements, the
    result at each position is the decoded record if the exchange of the
    element at that position resolved, and otherwise a record generated for
    that element and marked mock. *)
Theorem post_samp_servers_positions random servers nets calls results total
    k target :
  post_samp_servers random (Some servers) nets calls = BatchJson results total ->
  nth_error servers k = Some target ->
  exists r,
    nth_error results k = Some r
    /\ result_of random target (nth k nets []) r.
Proof.
  unfold post_samp_servers.
  destruct (5 <? List.length servers)%nat; [discriminate|].
  destruct (query_servers random servers nets calls) as [rs|e|] eqn:E;
    try discriminate.
  intros [= <- _]. now apply (proj2 (query_servers_Done _ _ _ _ _ E)).
Qed.

Lemma post_samp_servers_positions_witness :
  exists results r,
    post_samp_servers (fun _ => 1 # 2)
      (Some [{| s_ip := Some "51.79.247.157"; s_port := Some (Int 70000) |}])
      [] 0 = BatchJson results 1
    /\ nth_error results 0 = Some r
    /\ result_of (fun _ => 1 # 2)
         {| s_ip := Some "51.79.247.157"; s_port := Some (Int 70000) |} [] r.
Proof.
  eexists.
  edestruct (post_samp_servers_positions (fun _ => 1 # 2)
               [{| s_ip := Some "51.79.247.157"; s_port := Some (Int 70000) |}]
               [] 0%nat) with (k := 0%nat) as (r & Hr & Hres);
    [vm_compute; reflexivity | reflexivity |].
  exists r. split; [reflexivity|]. split; [exact Hr | exact Hres].
Defined.

(** X17: a batch of one element with a string address and a port from 1 to
    65535 gives what the single-target endpoint gives for the same address,
    port, network and samples: the same data with the same source, or the same
    exception. *)
Theorem post_samp_servers_one random ip port p net calls :
  ip <> "" -> parseInt port = Int p -> port <> "" -> 1 <= p <= 65535 ->
  let one := {| s_ip := Some ip; s_port := Some (Int p) |} in
  match get_samp_server random (Some ip) (Some port) net calls with
  | Json d _ src _ =>
      post_samp_servers random (Some [one]) [net] calls
      = BatchJson
          [{| success := true; i_data := d; i_query := one;
              i_metadata := match src with real => None | mock => Some mock end
           |}] 1
  | Unhandled e =>
      post_samp_servers random (Some [one]) [net] calls = BatchUnhandled e
  | BadRequest _ | Pending => False
  end.
Proof.
  intros Hip Hp Hport Hr. cbn zeta.
  unfold get_samp_server, post_samp_servers, truthy.
  apply String.eqb_neq in Hip, Hport. rewrite Hip, Hport.
  cbn [negb orb parseInt_opt]. rewrite Hp.
  replace ((p <? 1) || (65535 <? p)) with false
    by (symmetry; apply orb_false_intro; apply Z.ltb_ge; lia).
  cbn [List.length Nat.ltb Nat.leb query_servers s_ip s_port hd tl].
  destruct (queryRealSampServer_reports (Some ip) (Some (Int p)) net)
    as [[info|f] ->].
  - reflexivity.
  - destruct (generateRealisticMockData random (Some ip) (Some (Int p)) calls)
      as [[m calls']|e]; reflexivity.
Qed.

Lemma post_samp_servers_one_witness :
  post_samp_servers (fun _ => 1 # 2)
    (Some [{| s_ip := Some "localhost"; s_port := Some (Int 7777) |}]) [[]] 0
  = BatchUnhandled TypeError.
Proof.
  pose proof (post_samp_servers_one (fun _ => 1 # 2) "localhost" "7777" 7777
                [] 0%nat) as H.
  apply H; [discriminate | reflexivity | discriminate | lia].
Defined.
